(** * Attendance API: geofence evaluation, employee store and read-side
      aggregations of [main.py], as a shallow embedding.

    Python floats are kept abstract behind the interface [PyFloat]; the
    document store is a pair of document lists in natural (insertion) order;
    the wall clock, the calendar date and the identifier the store generates
    are explicit inputs of the handlers that consult them. *)

From Stdlib Require Import List String Ascii Bool ZArith Arith Lia.
From Stdlib Require Import Permutation Sorted Relations.
From Stdlib Require Import Reals Lra.
Import ListNotations.

Local Open Scope string_scope.
Local Open Scope list_scope.

Set Implicit Arguments.

(** ** Outcome of a request handler *)

(** A handler returns its payload, raises [HTTPException(status_code, detail)],
    or lets another exception escape (the framework answers 500). *)
Inductive result (A : Type) : Type :=
| Ok (a : A)
| HTTPException (status_code : Z) (detail : string)
| Uncaught (exc : string).

Arguments Ok {A} a.
Arguments HTTPException {A} status_code detail.
Arguments Uncaught {A} exc.

Definition bind {A B : Type} (r : result A) (k : A -> result B) : result B :=
  match r with
  | Ok a => k a
  | HTTPException c d => HTTPException c d
  | Uncaught e => Uncaught e
  end.

Notation "x <- r ;; k" := (bind r (fun x => k))
  (at level 61, r at next level, right associativity).

(** ** Python floats *)

(** The operations of Python's [float] and of [math] that [main.py] uses.
    [of_int] is the promotion of an [int] literal in mixed arithmetic,
    [feq] is [==] and [fle] is [<=]; [fneg] is unary minus and appears in
    the laws only. *)
Class PyFloat (F : Type) : Type := {
  of_int : Z -> F;
  fneg : F -> F;
  fadd : F -> F -> F;
  fsub : F -> F -> F;
  fmul : F -> F -> F;
  fdiv : F -> F -> F;
  fpow : F -> Z -> F;
  feq : F -> F -> bool;
  fle : F -> F -> bool;
  radians : F -> F;
  fsin : F -> F;
  fcos : F -> F;
  fsqrt : F -> F;
  fatan2 : F -> F -> F
}.

(** Sign symmetries of IEEE-754 arithmetic and of the C library, stated so
    that they hold for signed zeros ([x - x] is [+0] in both orders) as well
    as for the reals. *)
Class PyFloatLaws (F : Type) {FO : PyFloat F} : Prop := {
  fsub_swap : forall a b : F, fsub a b = fsub b a \/ fsub a b = fneg (fsub b a);
  radians_fneg : forall x : F, radians (fneg x) = fneg (radians x);
  fdiv_fneg : forall x y : F, fdiv (fneg x) y = fneg (fdiv x y);
  fsin_fneg : forall x : F, fsin (fneg x) = fneg (fsin x);
  fpow_fneg_2 : forall x : F, fpow (fneg x) 2 = fpow x 2;
  fmul_comm : forall x y : F, fmul x y = fmul y x;
  feq_fle : forall x y : F, feq x y = true -> fle x y = true
}.

Arguments PyFloatLaws F {FO}.

(** What IEEE-754 arithmetic and the C library compute at zero.  [finite]
    holds of the floats that are neither infinite nor NaN: the difference
    of such a float with itself is [+0.0], and the square of a cosine,
    being finite and not negative, times [+0.0] is [+0.0]. *)
Class PyFloatZeroLaws (F : Type) {FO : PyFloat F} (finite : F -> Prop)
    : Prop := {
  fsub_self : forall x : F, finite x -> fsub x x = of_int 0;
  radians_0 : radians (of_int 0) = of_int 0;
  fdiv_0_2 : fdiv (of_int 0) (of_int 2) = of_int 0;
  fsin_0 : fsin (of_int 0) = of_int 0;
  fpow_0_2 : fpow (of_int 0) 2 = of_int 0;
  fcos_sq_0 : forall x : F, finite x ->
    fmul (fmul (fcos (radians x)) (fcos (radians x))) (of_int 0) = of_int 0;
  fadd_0_0 : fadd (of_int 0) (of_int 0) = of_int 0;
  fsqrt_0 : fsqrt (of_int 0) = of_int 0;
  fsub_1_0 : fsub (of_int 1) (of_int 0) = of_int 1;
  fsqrt_1 : fsqrt (of_int 1) = of_int 1;
  fatan2_0_1 : fatan2 (of_int 0) (of_int 1) = of_int 0;
  fmul_2_0 : fmul (of_int 2) (of_int 0) = of_int 0;
  fmul_R_0 : fmul (of_int 6371000) (of_int 0) = of_int 0
}.

Arguments PyFloatZeroLaws F {FO} finite.

(** ** Text helpers *)

Definition lower_char (c : ascii) : ascii :=
  let n := nat_of_ascii c in
  if (65 <=? n)%nat && (n <=? 90)%nat then ascii_of_nat (n + 32) else c.


Definition is_hex (c : ascii) : bool :=
  let n := nat_of_ascii c in
  ((48 <=? n)%nat && (n <=? 57)%nat)
  || ((65 <=? n)%nat && (n <=? 70)%nat)
  || ((97 <=? n)%nat && (n <=? 102)%nat).

Fixpoint all_chars (p : ascii -> bool) (s : string) : bool :=
  match s with
  | EmptyString => true
  | String c s' => p c && all_chars p s'
  end.

(** Python truthiness of a [str] and of an [Optional[str]]. *)
Definition truthy (s : string) : bool :=
  match s with EmptyString => false | _ => true end.

Definition truthy_opt (o : option string) : bool :=
  match o with Some s => truthy s | None => false end.

(** ** Identifiers of the store *)

(** [bson.ObjectId]: the bytes of an identifier, twelve of them for those
    the store generates, kept as the lower-case hexadecimal digits that
    [str(oid)] prints; equality of identifiers compares the bytes. *)
Inductive ObjectId : Type := Oid (hex : string).

Definition str (o : ObjectId) : string := let (h) := o in h.

Definition ObjectId_eqb (a b : ObjectId) : bool := String.eqb (str a) (str b).

(** ASCII white space, as [bytes.fromhex] skips it: the space and the
    control characters 9 to 13. *)
Definition is_space (c : ascii) : bool :=
  let n := nat_of_ascii c in
  Nat.eqb n 32 || ((9 <=? n)%nat && (n <=? 13)%nat).

(** [bytes.fromhex(s)], the bytes kept as lower-case hexadecimal digits:
    white space is skipped before each pair of digits, and anything else
    than a pair of hexadecimal digits is refused ([None] is the
    [ValueError]).  A character outside ASCII is neither white space nor
    a digit. *)
Fixpoint fromhex (s : string) : option string :=
  match s with
  | EmptyString => Some EmptyString
  | String c s' =>
      if is_space c then fromhex s'
      else if is_hex c then
        match s' with
        | String c' s'' =>
            if is_hex c'
            then option_map
                   (fun r => String (lower_char c) (String (lower_char c') r))
                   (fromhex s'')
            else None
        | EmptyString => None
        end
      else None
  end.

(** [ObjectId(s)] for a [str]: a text of 24 characters is handed to
    [bytes.fromhex] and accepted when that succeeds, white space included,
    in which case the identifier has fewer than twelve bytes; any other
    text is refused with [InvalidId].  [None] stands for the raise. *)
Definition ObjectId_of_str (s : string) : option ObjectId :=
  if (String.length s =? 24)%nat then option_map Oid (fromhex s) else None.

(** Texts of ASCII characters, and of printable ASCII characters. *)
Definition is_ascii_text (s : string) : bool :=
  all_chars (fun c => (nat_of_ascii c <? 128)%nat) s.


(** ** Caseless regular-expression search of the store *)

(** [{"$regex": q, "$options": "i"}] hands [q] to the store's PCRE engine.
    [regex_i q] is the compiled caseless, unanchored search, or [None] when
    [q] is not a pattern the engine accepts (the query then fails). *)
Class Regex : Type := {
  regex_i : string -> option (string -> bool)
}.

(** Characters with a special meaning in a PCRE pattern:
    backslash, caret, dollar, dot, bar, question mark, star, plus,
    parentheses, brackets and braces. *)
Definition is_meta (c : ascii) : bool :=
  existsb (Nat.eqb (nat_of_ascii c))
          [92; 94; 36; 46; 124; 63; 42; 43; 40; 41; 91; 93; 123; 125]%nat.


Fixpoint starts_with (p s : string) : bool :=
  match p, s with
  | EmptyString, _ => true
  | String _ _, EmptyString => false
  | String a p', String b s' => Ascii.eqb a b && starts_with p' s'
  end.




(** A concrete engine for the fragment of PCRE made of ordinary characters
    and the dot: an ordinary character matches itself up to case, the dot
    matches any character except a line feed.  The engine turns down every
    pattern with another metacharacter, so it covers less than PCRE; it is
    only ever consulted on patterns it handles. *)
Module Fragment.

Inductive item : Type := Chr (c : ascii) | AnyChar.

Fixpoint compile (q : string) : option (list item) :=
  match q with
  | EmptyString => Some []
  | String c q' =>
      match compile q' with
      | None => None
      | Some p =>
          if Nat.eqb (nat_of_ascii c) 46 then Some (AnyChar :: p)
          else if is_meta c then None
          else Some (Chr c :: p)
      end
  end.

Fixpoint match_here (p : list item) (s : string) : bool :=
  match p, s with
  | [], _ => true
  | _ :: _, EmptyString => false
  | Chr c :: p', String d s' =>
      Ascii.eqb (lower_char c) (lower_char d) && match_here p' s'
  | AnyChar :: p', String d s' =>
      negb (Nat.eqb (nat_of_ascii d) 10) && match_here p' s'
  end.

Fixpoint search (p : list item) (s : string) : bool :=
  match_here p s ||
  match s with
  | EmptyString => false
  | String _ s' => search p s'
  end.

Definition engine : Regex :=
  {| regex_i := fun q => option_map search (compile q) |}.

End Fragment.

(** ** The real numbers as a model of the float interface *)

Module RealModel.

Local Open Scope R_scope.

Definition Rleb (x y : R) : bool := if Rle_dec x y then true else false.

Definition Reqb (x y : R) : bool := if Req_dec_T x y then true else false.

Definition Ratan2 (y x : R) : R :=
  if Rlt_dec 0 x then atan (y / x)
  else if Rlt_dec x 0 then
    (if Rle_dec 0 y then atan (y / x) + PI else atan (y / x) - PI)
  else if Rlt_dec 0 y then PI / 2
  else if Rlt_dec y 0 then - (PI / 2)
  else 0.

#[export] Instance R_float : PyFloat R := {|
  of_int := IZR;
  fneg := Ropp;
  fadd := Rplus;
  fsub := Rminus;
  fmul := Rmult;
  fdiv := Rdiv;
  fpow := powerRZ;
  feq := Reqb;
  fle := Rleb;
  radians := fun x => x * (PI / 180);
  fsin := sin;
  fcos := cos;
  fsqrt := sqrt;
  fatan2 := Ratan2
|}.

End RealModel.

(** ** Data model *)

Section Api.

Context {F : Type} {FO : PyFloat F} {RX : Regex}.

(** Request and response models of [main.py]. *)
Record EmployeeIn : Type := {
  name : string;
  email : string;
  role : option string;
  phone : option string
}.

Record EmployeeOut : Type := {
  eo_id : string;
  eo_name : string;
  eo_email : string;
  eo_role : option string;
  eo_phone : option string;
  eo_is_active : bool
}.

Record AttendanceMarkIn : Type := {
  employee_id : string;
  lat : option F;
  lng : option F
}.

Record AttendanceOut : Type := {
  ao_id : string;
  ao_employee_id : string;
  ao_date : string;
  ao_status : string;
  ao_lat : option F;
  ao_lng : option F;
  ao_distance_m : option F
}.

(** Documents of the two collections ([schemas.py]), with the identifier and
    the timestamps the store keeps.  Timestamps are seconds on some clock. *)
Record Employee : Type := {
  e__id : ObjectId;
  e_name : string;
  e_email : string;
  e_role : option string;
  e_phone : option string;
  e_is_active : bool;
  e_created_at : Z;
  e_updated_at : option Z
}.

Record Attendance : Type := {
  a__id : ObjectId;
  a_employee_id : string;
  a_status : string;
  a_date : string;
  a_lat : option F;
  a_lng : option F;
  a_distance_m : option F;
  a_created_at : Z
}.

(** The database: each collection in natural order. *)
Record Database : Type := {
  employee : list Employee;
  attendance : list Attendance
}.

(** Process-wide configuration read from the environment at start-up. *)
Record Config : Type := {
  OFFICE_LAT : F;
  OFFICE_LNG : F;
  GEOFENCE_M : F
}.

(** ** Helper *)

(** [_collection(name)]: the named collection of [db], or 500 when no
    database is configured.  The name is given by the projection. *)
Definition _collection {A : Type} (coll : Database -> list A)
    (db : option Database) : result (list A) :=
  match db with
  | None => HTTPException 500 "Database not configured"
  | Some d => Ok (coll d)
  end.

(** [haversine_m] as a value.  [math.sqrt], [math.sin] and [math.cos]
    raise [ValueError] outside their domain (a negative radicand, an
    infinite angle); this is the value the function returns when none of
    them raises, and what is stated of [mark_attendance] with a position
    is stated of the calls that return. *)
Definition haversine_m (lat1 lon1 lat2 lon2 : F) : F :=
  let R := of_int 6371000 in
  let dlat := radians (fsub lat2 lat1) in
  let dlon := radians (fsub lon2 lon1) in
  let a := fadd (fpow (fsin (fdiv dlat (of_int 2))) 2)
                (fmul (fmul (fcos (radians lat1)) (fcos (radians lat2)))
                      (fpow (fsin (fdiv dlon (of_int 2))) 2)) in
  let c := fmul (of_int 2) (fatan2 (fsqrt a) (fsqrt (fsub (of_int 1) a))) in
  fmul R c.

(** ** Operations of the store *)

(** [find_one(filter)]: the first matching document in natural order. *)
Definition find_one {A : Type} (filter_q : A -> bool) (coll : list A)
    : option A :=
  find filter_q coll.

(** [update_one(filter, {"$set": ...})]: the first matching document is
    updated; the second component is [matched_count]. *)
Fixpoint update_one {A : Type} (filter_q : A -> bool) (set : A -> A)
    (coll : list A) : list A * nat :=
  match coll with
  | [] => ([], 0%nat)
  | d :: rest =>
      if filter_q d then (set d :: rest, 1%nat)
      else let (rest', n) := update_one filter_q set rest in (d :: rest', n)
  end.

(** [cursor.sort(key, -1)]: descending on [key]. *)
Fixpoint insert_desc {A : Type} (key : A -> Z) (d : A) (l : list A) : list A :=
  match l with
  | [] => [d]
  | x :: l' =>
      if (key x <=? key d)%Z then d :: x :: l' else x :: insert_desc key d l'
  end.

Fixpoint sort_desc {A : Type} (key : A -> Z) (l : list A) : list A :=
  match l with
  | [] => []
  | d :: rest => insert_desc key d (sort_desc key rest)
  end.

(** The pair of a collection name and the data given to [create_document]. *)
Inductive new_document : Type :=
| NewEmployee (data : EmployeeIn) (is_active : bool)
| NewAttendance (employee_id date status : string) (lat lng distance_m : option F).

(** Modelled from the spec: [database.py], which defines [db] and
    [create_document], is not among the sources.  Per the specification
    [insert(collectionKind, record)] stores the record, stamping a creation
    timestamp, and returns a newly generated opaque identifier; a store
    failure propagates as a server error.  [new_id] is the identifier the
    store generates for this insertion and [now] the time of the stamp. *)
Definition create_document (data : new_document) (new_id : ObjectId) (now : Z)
    (db : option Database) : result (string * option Database) :=
  match db with
  | None => Uncaught "Database not available"
  | Some d =>
      match data with
      | NewEmployee p act =>
          Ok (str new_id, Some
              {| employee := employee d ++
                   [ {| e__id := new_id; e_name := name p; e_email := email p;
                        e_role := role p; e_phone := phone p;
                        e_is_active := act; e_created_at := now;
                        e_updated_at := None |} ];
                 attendance := attendance d |})
      | NewAttendance eid date status la lo dist =>
          Ok (str new_id, Some
              {| employee := employee d;
                 attendance := attendance d ++
                   [ {| a__id := new_id; a_employee_id := eid;
                        a_status := status; a_date := date;
                        a_lat := la; a_lng := lo; a_distance_m := dist;
                        a_created_at := now |} ] |})
      end
  end.

(** ** Routes: employees *)

Definition create_employee (payload : EmployeeIn) (new_id : ObjectId) (now : Z)
    (db : option Database) : result (EmployeeOut * option Database) :=
  r <- create_document (NewEmployee payload true) new_id now db ;;
  let (emp_id, db') := r in
  Ok ({| eo_id := emp_id; eo_name := name payload; eo_email := email payload;
         eo_role := role payload; eo_phone := phone payload;
         eo_is_active := true |}, db').

(** The query of [list_employees]: [{"is_active": True}], with the [$or] of
    the two regular-expression matches when [q] is truthy. *)
Definition employee_filter (q : option string) : result (Employee -> bool) :=
  match q with
  | Some s =>
      if truthy s then
        match regex_i s with
        | Some m =>
            Ok (fun d => e_is_active d && (m (e_name d) || m (e_email d)))
        | None => Uncaught "OperationFailure"
        end
      else Ok e_is_active
  | None => Ok e_is_active
  end.

Definition employee_out (d : Employee) : EmployeeOut :=
  {| eo_id := str (e__id d); eo_name := e_name d; eo_email := e_email d;
     eo_role := e_role d; eo_phone := e_phone d;
     eo_is_active := e_is_active d |}.

Definition list_employees (q : option string) (db : option Database)
    : result (list EmployeeOut) :=
  coll <- _collection employee db ;;
  filter_q <- employee_filter q ;;
  let docs := sort_desc e_created_at (filter filter_q coll) in
  Ok (map employee_out docs).

Definition deactivate (now : Z) (e : Employee) : Employee :=
  {| e__id := e__id e; e_name := e_name e; e_email := e_email e;
     e_role := e_role e; e_phone := e_phone e;
     e_is_active := false; e_created_at := e_created_at e;
     e_updated_at := Some now |}.

Definition by_id (oid : ObjectId) (e : Employee) : bool :=
  ObjectId_eqb (e__id e) oid.

(** Writing a collection back into the database it came from. *)
Definition with_employee (coll : list Employee) (db : option Database)
    : option Database :=
  option_map (fun d => {| employee := coll; attendance := attendance d |}) db.

(** [remove_employee]; the payload of success is [{"status": "ok"}]. *)
Definition remove_employee (employee_id : string) (now : Z)
    (db : option Database) : result (string * option Database) :=
  coll <- _collection employee db ;;
  oid <- match ObjectId_of_str employee_id with
         | Some o => Ok o
         | None => HTTPException 400 "Invalid employee id"
         end ;;
  let (coll', matched_count) := update_one (by_id oid) (deactivate now) coll in
  if (matched_count =? 0)%nat then HTTPException 404 "Employee not found"
  else Ok ("ok", with_employee coll' db).

(** ** Routes: attendance *)

(** Line 150 of [main.py]: the verdict for a distance and a radius. *)
Definition classify (distance radius : F) : string :=
  if fle distance radius then "present" else "absent".

(** Lines 146-150: the distance and the status stored for a submitted
    position. *)
Definition evaluate (cfg : Config) (lat lng : option F) : option F * string :=
  match lat, lng with
  | Some la, Some lo =>
      if negb (feq (OFFICE_LAT cfg) (of_int 0))
         || negb (feq (OFFICE_LNG cfg) (of_int 0))
      then
        let distance := haversine_m (OFFICE_LAT cfg) (OFFICE_LNG cfg) la lo in
        (Some distance, classify distance (GEOFENCE_M cfg))
      else (None, "absent")
  | _, _ => (None, "absent")
  end.

Definition mark_attendance (cfg : Config) (payload : AttendanceMarkIn)
    (new_id : ObjectId) (now : Z) (today : string) (db : option Database)
    : result (AttendanceOut * option Database) :=
  coll_emp <- _collection employee db ;;
  oid <- match ObjectId_of_str (employee_id payload) with
         | Some o => Ok o
         | None => HTTPException 400 "Invalid employee id"
         end ;;
  match find_one (fun e => by_id oid e && e_is_active e) coll_emp with
  | None => HTTPException 404 "Employee not found or inactive"
  | Some _ =>
      let (distance, status) := evaluate cfg (lat payload) (lng payload) in
      r <- create_document
             (NewAttendance (employee_id payload) today status
                            (lat payload) (lng payload) distance)
             new_id now db ;;
      let (att_id, db') := r in
      Ok ({| ao_id := att_id; ao_employee_id := employee_id payload;
             ao_date := today; ao_status := status;
             ao_lat := lat payload; ao_lng := lng payload;
             ao_distance_m := distance |}, db')
  end.

Record DailyRecord : Type := {
  dr_id : string;
  dr_employee_id : string;
  dr_employee_name : option string;
  dr_status : string;
  dr_date : string;
  dr_distance_m : option F
}.

Record DailyOut : Type := {
  d_date : string;
  d_records : list DailyRecord
}.

(** The employee joined to an attendance document: none when the document
    has no employee identifier, [InvalidId] escaping when it is malformed. *)
Definition lookup_employee (emp_coll : list Employee) (d : Attendance)
    : result (option Employee) :=
  if truthy (a_employee_id d) then
    match ObjectId_of_str (a_employee_id d) with
    | Some oid => Ok (find_one (by_id oid) emp_coll)
    | None => Uncaught "InvalidId"
    end
  else Ok None.

Definition daily_record (d : Attendance) (emp : option Employee)
    : DailyRecord :=
  {| dr_id := str (a__id d); dr_employee_id := a_employee_id d;
     dr_employee_name := option_map e_name emp;
     dr_status := a_status d; dr_date := a_date d;
     dr_distance_m := a_distance_m d |}.

(** The loop of [attendance_daily] over the day's documents. *)
Fixpoint daily_records (emp_coll : list Employee) (docs : list Attendance)
    : result (list DailyRecord) :=
  match docs with
  | [] => Ok []
  | d :: rest =>
      emp <- lookup_employee emp_coll d ;;
      recs <- daily_records emp_coll rest ;;
      Ok (daily_record d emp :: recs)
  end.

Definition attendance_daily (date_str : option string) (today : string)
    (db : option Database) : result DailyOut :=
  coll <- _collection attendance db ;;
  let day := match date_str with
             | Some s => if truthy s then s else today
             | None => today
             end in
  let docs := filter (fun d => String.eqb (a_date d) day) coll in
  emp_coll <- _collection employee db ;;
  recs <- daily_records emp_coll docs ;;
  Ok {| d_date := day; d_records := recs |}.

(** The inner dictionary [{"present": 0, "absent": 0}] of [by_date]. *)
Record DayTally : Type := {
  present : nat;
  absent : nat
}.

Record SeriesEntry : Type := {
  s_date : string;
  s_present : nat;
  s_absent : nat
}.

Record SummaryOut : Type := {
  so_present : nat;
  so_absent : nat;
  so_series : list SeriesEntry
}.

(** [dict.setdefault(k, v)] on a dictionary kept in insertion order. *)
Fixpoint setdefault (k : string) (v : DayTally)
    (by_date : list (string * DayTally)) : list (string * DayTally) :=
  match by_date with
  | [] => [(k, v)]
  | (k', v') :: rest =>
      if String.eqb k' k then (k', v') :: rest
      else (k', v') :: setdefault k v rest
  end.

(** [t[status] += 1]; [None] is the [KeyError] of a status that is not a
    key of the tally. *)
Definition incr (status : string) (t : DayTally) : option DayTally :=
  if String.eqb status "present"
  then Some {| present := S (present t); absent := absent t |}
  else if String.eqb status "absent"
  then Some {| present := present t; absent := S (absent t) |}
  else None.

(** [by_date[k][status] += 1]. *)
Fixpoint incr_at (k status : string) (by_date : list (string * DayTally))
    : option (list (string * DayTally)) :=
  match by_date with
  | [] => None
  | (k', t) :: rest =>
      if String.eqb k' k
      then option_map (fun t' => (k', t') :: rest) (incr status t)
      else option_map (cons (k', t)) (incr_at k status rest)
  end.

(** The body of the grouping loop of [attendance_summary]. *)
Definition tally_doc (d : Attendance) (by_date : list (string * DayTally))
    : option (list (string * DayTally)) :=
  incr_at (a_date d) (a_status d)
          (setdefault (a_date d) {| present := 0; absent := 0 |} by_date).

(** The grouping loop. *)
Fixpoint group_by_date (docs : list Attendance)
    (by_date : list (string * DayTally)) : result (list (string * DayTally)) :=
  match docs with
  | [] => Ok by_date
  | d :: rest =>
      match tally_doc d by_date with
      | Some by_date' => group_by_date rest by_date'
      | None => Uncaught "KeyError"
      end
  end.

(** [sorted(by_date.items())]: keys are distinct, so the order is that of
    the keys, Python's ordering of [str]. *)
Fixpoint insert_item (kv : string * DayTally) (l : list (string * DayTally))
    : list (string * DayTally) :=
  match l with
  | [] => [kv]
  | x :: l' =>
      if String.leb (fst kv) (fst x) then kv :: x :: l'
      else x :: insert_item kv l'
  end.

Fixpoint sorted_items (l : list (string * DayTally))
    : list (string * DayTally) :=
  match l with
  | [] => []
  | kv :: rest => insert_item kv (sorted_items rest)
  end.

(** The query of [attendance_summary]: the employee identifier, and the
    inclusive range on [date] when both bounds are truthy. *)
Definition summary_filter (employee_id : string) (start end_ : option string)
    (d : Attendance) : bool :=
  String.eqb (a_employee_id d) employee_id &&
  match start, end_ with
  | Some s, Some e =>
      if truthy s && truthy e
      then String.leb s (a_date d) && String.leb (a_date d) e
      else true
  | _, _ => true
  end.

Definition count_status (status : string) (docs : list Attendance) : nat :=
  List.length (filter (fun d => String.eqb (a_status d) status) docs).

Definition series_entry (kv : string * DayTally) : SeriesEntry :=
  {| s_date := fst kv; s_present := present (snd kv);
     s_absent := absent (snd kv) |}.

Definition attendance_summary (employee_id : string)
    (start end_ : option string) (db : option Database) : result SummaryOut :=
  coll <- _collection attendance db ;;
  let docs := filter (summary_filter employee_id start end_) coll in
  let present := count_status "present" docs in
  let absent := count_status "absent" docs in
  by_date <- group_by_date docs [] ;;
  let series := map series_entry (sorted_items by_date) in
  Ok {| so_present := present; so_absent := absent; so_series := series |}.

(** ** Reference readings used in the statements *)


(** Point lookup of an employee by the text of an identifier, whatever the
    active flag; nothing for a text that is not an identifier. *)
Definition point_lookup (emp_coll : list Employee) (employee_id : string)
    : option Employee :=
  match ObjectId_of_str employee_id with
  | Some oid => find_one (by_id oid) emp_coll
  | None => None
  end.

(** Number of documents of a given date and status. *)
Definition count_on (date status : string) (docs : list Attendance) : nat :=
  List.length
    (filter (fun d => String.eqb (a_date d) date &&
                      String.eqb (a_status d) status) docs).

(** The outcome [r] of the summary handler is the summary of the attendance
    documents [records]: when it is an answer, its totals count the present
    and the absent among them, its series has the dates that occur among
    them, and each entry tallies the documents of its date; and it is an
    answer whenever all of them are present or absent. *)
Definition summarises (records : list Attendance) (r : result SummaryOut)
    : Prop :=
  (forall resp,
     r = Ok resp ->
     so_present resp = count_status "present" records /\
     so_absent resp = count_status "absent" records /\
     (forall k, In k (map s_date (so_series resp)) <->
                In k (map a_date records)) /\
     (forall e, In e (so_series resp) ->
        s_present e = count_on (s_date e) "present" records /\
        s_absent e = count_on (s_date e) "absent" records)) /\
  ((forall a, In a records ->
      a_status a = "present" \/ a_status a = "absent") ->
   exists resp, r = Ok resp).

(** [by_date.get(k)] *)
Fixpoint tally_of (k : string) (by_date : list (string * DayTally))
    : option DayTally :=
  match by_date with
  | [] => None
  | (k', t) :: rest => if String.eqb k' k then Some t else tally_of k rest
  end.

Definition keys (by_date : list (string * DayTally)) : list string :=
  map fst by_date.

Definition total_present (by_date : list (string * DayTally)) : nat :=
  list_sum (map (fun kv => present (snd kv)) by_date).

Definition total_absent (by_date : list (string * DayTally)) : nat :=
  list_sum (map (fun kv => absent (snd kv)) by_date).

(** The order [sorted] puts the items in. *)
Definition key_le (a b : string * DayTally) : Prop :=
  String.leb (fst a) (fst b) = true.

Definition present_on (k : string) (by_date : list (string * DayTally)) : nat :=
  match tally_of k by_date with Some t => present t | None => 0%nat end.

Definition absent_on (k : string) (by_date : list (string * DayTally)) : nat :=
  match tally_of k by_date with Some t => absent t | None => 0%nat end.

(** The contribution of one document to the tally of a date and status. *)
Definition hit (date status : string) (d : Attendance) : nat :=
  if String.eqb (a_date d) date && String.eqb (a_status d) status
  then 1%nat else 0%nat.

(** ** Sequences of requests *)

(** A request together with what the environment contributes to it: the
    identifier the store generates, the clock and the calendar date. *)
Inductive call : Type :=
| CreateEmployee (payload : EmployeeIn) (new_id : ObjectId) (now : Z)
| ListEmployees (q : option string)
| RemoveEmployee (employee_id : string) (now : Z)
| MarkAttendance (payload : AttendanceMarkIn) (new_id : ObjectId)
                 (now : Z) (today : string)
| AttendanceDaily (date_str : option string) (today : string)
| AttendanceSummary (employee_id : string) (start end_ : option string).

(** The database after a handler: a handler that raises has written
    nothing. *)
Definition after {A : Type} (r : result (A * option Database))
    (db : option Database) : option Database :=
  match r with
  | Ok (_, db') => db'
  | _ => db
  end.

Definition run (cfg : Config) (c : call) (db : option Database)
    : option Database :=
  match c with
  | CreateEmployee p i n => after (create_employee p i n db) db
  | RemoveEmployee e n => after (remove_employee e n db) db
  | MarkAttendance p i n t => after (mark_attendance cfg p i n t db) db
  | ListEmployees _ | AttendanceDaily _ _ | AttendanceSummary _ _ _ => db
  end.

Definition employee_ids (db : option Database) : list ObjectId :=
  match db with
  | Some d => map e__id (employee d)
  | None => []
  end.

Definition attendance_ids (db : option Database) : list ObjectId :=
  match db with
  | Some d => map a__id (attendance d)
  | None => []
  end.

(** A newly generated identifier is not in use in its collection. *)
Definition admissible (c : call) (db : option Database) : Prop :=
  match c with
  | CreateEmployee _ i _ => ~ In i (employee_ids db)
  | MarkAttendance _ i _ _ => ~ In i (attendance_ids db)
  | _ => True
  end.

(** [later cfg db db']: [db'] is the database after some sequence of
    requests served from [db]. *)
Inductive later (cfg : Config) : option Database -> option Database -> Prop :=
| later_refl : forall db, later cfg db db
| later_step : forall db c db',
    admissible c db -> later cfg (run cfg c db) db' -> later cfg db db'.

(** Identifiers are unique within the employee collection. *)
Definition unique_ids (db : option Database) : Prop :=
  NoDup (employee_ids db).

(** The employee [oid] is on file and every document carrying that
    identifier is inactive. *)
Definition soft_deleted (oid : ObjectId) (db : option Database) : Prop :=
  match db with
  | Some d =>
      (exists e, In e (employee d) /\ e__id e = oid) /\
      (forall e, In e (employee d) -> e__id e = oid -> e_is_active e = false)
  | None => False
  end.

(** ** The store as the requests leave it *)

(** The database of a freshly configured store. *)
Definition empty_database : option Database :=
  Some {| employee := []; attendance := [] |}.

(** Databases that requests alone produce from the fresh store. *)
Definition reachable (cfg : Config) (db : option Database) : Prop :=
  later cfg empty_database db.

(** The attendance document names an employee document that is on file. *)
Definition on_file (d : Database) (a : Attendance) : Prop :=
  exists oid e,
    ObjectId_of_str (a_employee_id a) = Some oid /\
    In e (employee d) /\ e__id e = oid.

(** The [Attendance] schema of [schemas.py] restricts [status] to the two
    literals; together with unique employee identifiers and references that
    resolve, this is what the handlers maintain. *)
Definition consistent (db : option Database) : Prop :=
  match db with
  | Some d =>
      NoDup (map e__id (employee d)) /\
      forall a, In a (attendance d) ->
        (a_status a = "present" \/ a_status a = "absent") /\ on_file d a
  | None => False
  end.

(** [e'] is the employee document [e] at a later time: everything but the
    active flag and the update stamp is as it was, and the flag has not
    gone from inactive to active. *)
Definition same_employee (e e' : Employee) : Prop :=
  e__id e' = e__id e /\ e_name e' = e_name e /\ e_email e' = e_email e /\
  e_role e' = e_role e /\ e_phone e' = e_phone e /\
  e_created_at e' = e_created_at e /\
  (e_is_active e' = true -> e_is_active e = true).

(** ** Route: connectivity probe *)

Record ProbeOut : Type := {
  backend : string;
  database : string;
  collections : list string
}.

(** [s[:n]] for a text of ASCII characters, where the characters that
    Python counts are the units of the string. *)
Fixpoint take_chars (n : nat) (s : string) : string :=
  match n, s with
  | O, _ => EmptyString
  | S _, EmptyString => EmptyString
  | S n', String c s' => String c (take_chars n' s')
  end.

(** [test_database].  [names] is what [db.list_collection_names()] does
    when it is called: it returns the names ([inl]) or raises an exception
    whose text is given ([inr]). *)
Definition test_database (db : option Database)
    (names : list string + string) : ProbeOut :=
  match db with
  | None =>
      {| backend := "running"; database := "not-connected";
         collections := [] |}
  | Some _ =>
      match names with
      | inl l =>
          {| backend := "running"; database := "connected";
             collections := l |}
      | inr e =>
          {| backend := "running";
             database := "error: " ++ take_chars 80 e;
             collections := [] |}
      end
  end.

End Api.

Arguments AttendanceMarkIn F : clear implicits.
Arguments AttendanceOut F : clear implicits.
Arguments Attendance F : clear implicits.
Arguments Database F : clear implicits.
Arguments Config F : clear implicits.
Arguments DailyRecord F : clear implicits.
Arguments DailyOut F : clear implicits.
Arguments call F : clear implicits.


(** ** A small office, for the examples *)

Module Examples.

#[local] Existing Instance RealModel.R_float.
#[local] Existing Instance Fragment.engine.

Definition id_ada : string := "0123456789abcdef01234567".
Definition id_bob : string := "0123456789abcdef01234568".
Definition id_nobody : string := "ffffffffffffffffffffffff".
Definition oid_ada : ObjectId := Oid id_ada.
Definition oid_bob : ObjectId := Oid id_bob.
Definition oid_first : ObjectId := Oid "aaaaaaaaaaaaaaaaaaaaaaa1".
Definition oid_second : ObjectId := Oid "aaaaaaaaaaaaaaaaaaaaaaa2".
Definition oid_third : ObjectId := Oid "aaaaaaaaaaaaaaaaaaaaaaa3".

Definition ada : EmployeeIn :=
  {| name := "Ada"; email := "ada@example.com"; role := None; phone := None |}.

Definition bob : EmployeeIn :=
  {| name := "Bob"; email := "bob@example.com"; role := Some "clerk";
     phone := None |}.

(** Office at 12 degrees north, 77 degrees east, radius 200 metres. *)
Definition office : Config R :=
  {| OFFICE_LAT := IZR 12; OFFICE_LNG := IZR 77; GEOFENCE_M := IZR 200 |}.

Definition no_position (employee_id : string) : AttendanceMarkIn R :=
  {| employee_id := employee_id; lat := None; lng := None |}.

Definition at_position (employee_id : string) (la lo : Z)
    : AttendanceMarkIn R :=
  {| employee_id := employee_id; lat := Some (IZR la); lng := Some (IZR lo) |}.

Definition empty_db : option (Database R) :=
  Some {| employee := []; attendance := [] |}.

(** Ada and Bob are registered; Ada marks attendance on two days, three
    times in all; then Ada is removed. *)
Definition calls_registered : list (call R) :=
  [ CreateEmployee ada oid_ada 100; CreateEmployee bob oid_bob 110 ].

Definition calls_marked : list (call R) :=
  [ MarkAttendance (no_position id_ada) oid_first 200 "2024-01-16";
    MarkAttendance (no_position id_ada) oid_second 210 "2024-01-15";
    MarkAttendance (no_position id_ada) oid_third 220 "2024-01-16" ].

Definition run_all (calls : list (call R)) (db : option (Database R))
    : option (Database R) :=
  fold_left (fun db c => run office c db) calls db.

Definition db_registered : option (Database R) :=
  Eval cbv in run_all calls_registered empty_db.

Definition db_marked : option (Database R) :=
  Eval cbv in run_all calls_marked db_registered.

Definition db_removed : option (Database R) :=
  Eval cbv in run office (RemoveEmployee id_ada 300) db_marked.

Definition carol : EmployeeIn :=
  {| name := "Carol"; email := "carol@example.com"; role := None;
     phone := Some "555-0100" |}.

Definition oid_carol : ObjectId := Oid "0123456789abcdef01234569".
Definition oid_fourth : ObjectId := Oid "aaaaaaaaaaaaaaaaaaaaaaa4".

(** Requests served after the removal. *)
Definition calls_later : list (call R) :=
  [ CreateEmployee carol oid_carol 310;
    MarkAttendance (no_position id_bob) oid_fourth 320 "2024-01-17";
    ListEmployees None;
    RemoveEmployee id_ada 330 ].

Definition db_later : option (Database R) :=
  Eval cbv in run_all calls_later db_removed.

(** The content of a configured database. *)
Definition content (db : option (Database R)) : Database R :=
  match db with
  | Some d => d
  | None => {| employee := []; attendance := [] |}
  end.

Definition d_registered : Database R := Eval cbv in content db_registered.
Definition d_removed : Database R := Eval cbv in content db_removed.

(** A week of records with both verdicts, as the store may hold them. *)
Definition record (i : string) (date status : string) (dist : option R)
    (at_ : Z) : Attendance R :=
  {| a__id := Oid i; a_employee_id := id_bob; a_status := status;
     a_date := date; a_lat := None; a_lng := None; a_distance_m := dist;
     a_created_at := at_ |}.

Definition db_week : Database R :=
  {| employee := employee d_removed;
     attendance :=
       [ record "bbbbbbbbbbbbbbbbbbbbbbb1" "2024-01-17" "present" None 400;
         record "bbbbbbbbbbbbbbbbbbbbbbb2" "2024-01-15" "absent" None 410;
         record "bbbbbbbbbbbbbbbbbbbbbbb3" "2024-01-17" "absent" None 420;
         record "bbbbbbbbbbbbbbbbbbbbbbb4" "2024-01-17" "present" None 430 ] |}.

(** The store with one more record of 15 January, written past the
    handlers, whose employee identifier is not an identifier. *)
Definition d_broken : Database R :=
  {| employee := employee d_removed;
     attendance := attendance d_removed ++
       [ {| a__id := Oid "cccccccccccccccccccccccc";
            a_employee_id := "not-an-id"; a_status := "present";
            a_date := "2024-01-15"; a_lat := None; a_lng := None;
            a_distance_m := None; a_created_at := 500 |} ] |}.

(** Everything that was asked of the store, in order. *)
Definition calls_all : list (call R) :=
  calls_registered ++ calls_marked ++
  [ RemoveEmployee id_ada 300 ] ++ calls_later.

End Examples.

(** * Properties *)

Unset Implicit Arguments.

Section Facts.

Context {F : Type} {FO : PyFloat F} {RX : Regex}.

(** ** Geofence evaluator *)

Section Geofence.

Context {FL : PyFloatLaws F}.

(** The squared half-angle sine does not depend on the order of the two
    coordinates that are subtracted. *)
Lemma half_angle_swap (x y : F) :
  fpow (fsin (fdiv (radians (fsub x y)) (of_int 2))) 2 =
  fpow (fsin (fdiv (radians (fsub y x)) (of_int 2))) 2.
Proof.
  destruct (fsub_swap x y) as [E | E]; rewrite E.
  - reflexivity.
  - now rewrite radians_fneg, fdiv_fneg, fsin_fneg, fpow_fneg_2.
Qed.

(** C8: the geofence distance is symmetric,
    distance(A, B) = distance(B, A) for all coordinate pairs A and B. *)
Theorem haversine_m_symmetric (lat1 lon1 lat2 lon2 : F) :
  haversine_m lat1 lon1 lat2 lon2 = haversine_m lat2 lon2 lat1 lon1.
Proof.
  unfold haversine_m.
  rewrite (half_angle_swap lat2 lat1), (half_angle_swap lon2 lon1).
  now rewrite (fmul_comm (fcos (radians lat1))).
Qed.

(** C2: the classification used when marking attendance is "present" if and
    only if the distance is at most the radius; in particular a distance
    equal to the radius is "present". *)
Theorem classify_present_iff (d r : F) :
  (classify d r = "present" <-> fle d r = true) /\
  (fle d r = false -> classify d r = "absent") /\
  (feq d r = true -> classify d r = "present").
Proof.
  unfold classify.
  split; [| split].
  - destruct (fle d r); split; intro H; try reflexivity; discriminate H.
  - intros ->. reflexivity.
  - intro E. now rewrite (feq_fle _ _ E).
Qed.

End Geofence.

(** ** Marking attendance *)

Lemma evaluate_disabled (cfg : Config F) (la lo : option F) :
  la = None \/ lo = None \/
  (feq (OFFICE_LAT cfg) (of_int 0) = true /\
   feq (OFFICE_LNG cfg) (of_int 0) = true) ->
  evaluate cfg la lo = (None, "absent").
Proof.
  unfold evaluate.
  intros [-> | [-> | [E1 E2]]].
  - reflexivity.
  - now destruct la.
  - rewrite E1, E2. now destruct la, lo.
Qed.

Lemma evaluate_enabled (cfg : Config F) (la lo : F) :
  ~ (feq (OFFICE_LAT cfg) (of_int 0) = true /\
     feq (OFFICE_LNG cfg) (of_int 0) = true) ->
  evaluate cfg (Some la) (Some lo) =
    (Some (haversine_m (OFFICE_LAT cfg) (OFFICE_LNG cfg) la lo),
     classify (haversine_m (OFFICE_LAT cfg) (OFFICE_LNG cfg) la lo)
              (GEOFENCE_M cfg)).
Proof.
  unfold evaluate. intro N.
  destruct (feq (OFFICE_LAT cfg) (of_int 0)), (feq (OFFICE_LNG cfg) (of_int 0));
    simpl; try reflexivity.
  exfalso. apply N. now split.
Qed.

(** What a successful call of [mark_attendance] returns and stores. *)
Lemma mark_attendance_ok (cfg : Config F) (payload : AttendanceMarkIn F)
    (new_id : ObjectId) (now : Z) (today : string) (db : option (Database F))
    (out : AttendanceOut F) (db' : option (Database F)) :
  mark_attendance cfg payload new_id now today db = Ok (out, db') ->
  exists d,
    db = Some d /\
    out = {| ao_id := str new_id; ao_employee_id := employee_id payload;
             ao_date := today;
             ao_status := snd (evaluate cfg (lat payload) (lng payload));
             ao_lat := lat payload; ao_lng := lng payload;
             ao_distance_m := fst (evaluate cfg (lat payload) (lng payload)) |} /\
    db' = Some
      {| employee := employee d;
         attendance := attendance d ++
           [ {| a__id := new_id; a_employee_id := employee_id payload;
                a_status := snd (evaluate cfg (lat payload) (lng payload));
                a_date := today;
                a_lat := lat payload; a_lng := lng payload;
                a_distance_m := fst (evaluate cfg (lat payload) (lng payload));
                a_created_at := now |} ] |}.
Proof.
  unfold mark_attendance.
  destruct db as [d |]; simpl; [| discriminate].
  destruct (ObjectId_of_str (employee_id payload)) as [oid |]; simpl;
    [| discriminate].
  destruct (find_one _ (employee d)); [| discriminate].
  destruct (evaluate cfg (lat payload) (lng payload)) as [dist st]; simpl.
  intro H. injection H as <- <-.
  exists d. repeat split.
Qed.

(** The call succeeds whenever the identifier names an active employee and
    the geofence is not evaluated, so that no function of [math] is called
    that could raise. *)
Lemma mark_attendance_total (cfg : Config F) (payload : AttendanceMarkIn F)
    (new_id : ObjectId) (now : Z) (today : string) (d : Database F)
    (oid : ObjectId) (e : Employee) :
  ObjectId_of_str (employee_id payload) = Some oid ->
  In e (employee d) -> e__id e = oid -> e_is_active e = true ->
  lat payload = None \/ lng payload = None \/
  (feq (OFFICE_LAT cfg) (of_int 0) = true /\
   feq (OFFICE_LNG cfg) (of_int 0) = true) ->
  exists out db',
    mark_attendance cfg payload new_id now today (Some d) = Ok (out, db') /\
    ao_status out = "absent" /\ ao_distance_m out = None.
Proof.
  intros Hoid Hin Hid Hact Hoff. unfold mark_attendance. simpl.
  rewrite Hoid. simpl.
  destruct (find_one _ (employee d)) as [e' |] eqn:E.
  - rewrite (evaluate_disabled cfg _ _ Hoff). simpl.
    eexists. eexists. split; [reflexivity |]. split; reflexivity.
  - exfalso. unfold find_one in E.
    pose proof (find_none _ _ E e Hin) as N. simpl in N.
    unfold by_id in N. rewrite Hid, Hact in N.
    unfold ObjectId_eqb in N. now rewrite String.eqb_refl in N.
Qed.

(** C1: for every successful call of mark-attendance, if the submitted
    latitude or longitude is absent, or both office coordinates equal zero,
    the created record has status "absent" and no distance, whatever the
    submitted position; otherwise its distance is the haversine distance
    from the office to the submitted position and its status is "present"
    exactly when that distance is at most the configured radius.  The same
    status and distance are in the document written to the store. *)
Theorem mark_attendance_geofence (cfg : Config F) (payload : AttendanceMarkIn F)
    (new_id : ObjectId) (now : Z) (today : string) (db : option (Database F))
    (out : AttendanceOut F) (db' : option (Database F)) :
  mark_attendance cfg payload new_id now today db = Ok (out, db') ->
  (lat payload = None \/ lng payload = None \/
   (feq (OFFICE_LAT cfg) (of_int 0) = true /\
    feq (OFFICE_LNG cfg) (of_int 0) = true) ->
   ao_status out = "absent" /\ ao_distance_m out = None) /\
  (forall la lo : F,
     lat payload = Some la -> lng payload = Some lo ->
     ~ (feq (OFFICE_LAT cfg) (of_int 0) = true /\
        feq (OFFICE_LNG cfg) (of_int 0) = true) ->
     let distance := haversine_m (OFFICE_LAT cfg) (OFFICE_LNG cfg) la lo in
     ao_distance_m out = Some distance /\
     (ao_status out = "present" <-> fle distance (GEOFENCE_M cfg) = true) /\
     (ao_status out = "absent" <-> fle distance (GEOFENCE_M cfg) = false)) /\
  (exists (d : Database F) (doc : Attendance F),
     db = Some d /\
     db' = Some {| employee := employee d;
                   attendance := attendance d ++ [doc] |} /\
     a_status doc = ao_status out /\
     a_distance_m doc = ao_distance_m out /\
     a_employee_id doc = employee_id payload /\
     a_date doc = today).
Proof.
  intro H.
  destruct (mark_attendance_ok _ _ _ _ _ _ _ _ H) as (d & -> & -> & ->).
  split; [| split].
  - intro D. simpl. now rewrite (evaluate_disabled cfg _ _ D).
  - intros la lo Ela Elo N distance. simpl.
    rewrite Ela, Elo, (evaluate_enabled cfg la lo N). simpl.
    fold distance. unfold classify.
    destruct (fle distance (GEOFENCE_M cfg)); repeat split;
      intros; try reflexivity; discriminate.
  - eexists d, _. repeat split.
Qed.

Lemma ObjectId_eqb_eq (a b : ObjectId) : ObjectId_eqb a b = true <-> a = b.
Proof.
  unfold ObjectId_eqb. rewrite String.eqb_eq.
  destruct a, b; simpl. split; congruence.
Qed.

Lemma by_id_true (oid : ObjectId) (e : Employee) :
  by_id oid e = true <-> e__id e = oid.
Proof. apply ObjectId_eqb_eq. Qed.

Lemma by_id_false (oid : ObjectId) (e : Employee) :
  by_id oid e = false <-> e__id e <> oid.
Proof.
  rewrite <- by_id_true. destruct (by_id oid e); split; congruence.
Qed.

Lemma mark_attendance_invalid_id (cfg : Config F) (payload : AttendanceMarkIn F)
    (new_id : ObjectId) (now : Z) (today : string) (d : Database F) :
  ObjectId_of_str (employee_id payload) = None ->
  mark_attendance cfg payload new_id now today (Some d) =
    HTTPException 400 "Invalid employee id".
Proof. unfold mark_attendance. simpl. now intros ->. Qed.

Lemma mark_attendance_not_found (cfg : Config F) (payload : AttendanceMarkIn F)
    (new_id : ObjectId) (now : Z) (today : string) (d : Database F)
    (oid : ObjectId) :
  ObjectId_of_str (employee_id payload) = Some oid ->
  (forall e : Employee,
     In e (employee d) -> e__id e = oid -> e_is_active e = false) ->
  mark_attendance cfg payload new_id now today (Some d) =
    HTTPException 404 "Employee not found or inactive".
Proof.
  unfold mark_attendance. simpl. intros -> Hin. simpl.
  destruct (find_one _ (employee d)) as [e |] eqn:E; [| reflexivity].
  apply find_some in E. destruct E as [Ein Eb].
  apply andb_true_iff in Eb. destruct Eb as [Eid Eact].
  apply by_id_true in Eid.
  rewrite (Hin e Ein Eid) in Eact. discriminate.
Qed.

(** C3 (amended): on a configured database, a mark-attendance request whose
    employee identifier is malformed fails with 400 (invalid input), and one
    whose identifier is well formed but names no active employee, whether
    missing or soft-deleted, fails with 404 (not found); with no database
    configured the request fails with 500 whatever the identifier. *)
Theorem mark_attendance_errors (cfg : Config F) (payload : AttendanceMarkIn F)
    (new_id : ObjectId) (now : Z) (today : string) (db : option (Database F)) :
  (db = None ->
   mark_attendance cfg payload new_id now today db =
     HTTPException 500 "Database not configured") /\
  (forall d : Database F, db = Some d ->
     (ObjectId_of_str (employee_id payload) = None ->
      mark_attendance cfg payload new_id now today db =
        HTTPException 400 "Invalid employee id") /\
     (forall oid : ObjectId,
        ObjectId_of_str (employee_id payload) = Some oid ->
        (forall e : Employee,
           In e (employee d) -> e__id e = oid -> e_is_active e = false) ->
        mark_attendance cfg payload new_id now today db =
          HTTPException 404 "Employee not found or inactive")).
Proof.
  split.
  - intros ->. reflexivity.
  - intros d ->. split.
    + apply mark_attendance_invalid_id.
    + apply mark_attendance_not_found.
Qed.

(** ** Soft deletion *)

Lemma update_one_none {A : Type} (p : A -> bool) (set : A -> A)
    (coll : list A) :
  (forall x, In x coll -> p x = false) ->
  update_one p set coll = (coll, 0%nat).
Proof.
  induction coll as [| x coll IH]; intro H; simpl.
  - reflexivity.
  - rewrite (H x (or_introl eq_refl)).
    rewrite IH; [reflexivity |].
    intros y Hy. apply H. now right.
Qed.

Lemma update_one_some {A : Type} (p : A -> bool) (set : A -> A)
    (coll : list A) (e : A) :
  In e coll -> p e = true ->
  exists l1 x l2,
    coll = l1 ++ x :: l2 /\ p x = true /\
    (forall y, In y l1 -> p y = false) /\
    update_one p set coll = (l1 ++ set x :: l2, 1%nat).
Proof.
  induction coll as [| x coll IH]; intros Hin Hp; [destruct Hin |].
  simpl. destruct (p x) eqn:Px.
  - exists [], x, coll.
    split; [reflexivity |]. split; [assumption |].
    split; [intros y [] | reflexivity].
  - destruct Hin as [-> | Hin]; [congruence |].
    destruct (IH Hin Hp) as (l1 & x' & l2 & -> & Px' & Hl1 & ->).
    exists (x :: l1), x', l2.
    split; [reflexivity |]. split; [assumption |].
    split; [| reflexivity].
    intros y [<- | Hy]; [assumption | now apply Hl1].
Qed.

Lemma deactivate_out_inactive (now : Z) (e : Employee) :
  e_is_active e = false -> employee_out (deactivate now e) = employee_out e.
Proof. intro H. unfold employee_out, deactivate. simpl. now rewrite H. Qed.

(** What [remove_employee] writes when the identifier is on file. *)
Lemma remove_employee_found (eid : string) (now : Z) (d : Database F)
    (oid : ObjectId) (e : Employee) :
  ObjectId_of_str eid = Some oid ->
  In e (employee d) -> e__id e = oid ->
  exists l1 x l2,
    employee d = l1 ++ x :: l2 /\ e__id x = oid /\
    (forall y, In y l1 -> e__id y <> oid) /\
    remove_employee eid now (Some d) =
      Ok ("ok", Some {| employee := l1 ++ deactivate now x :: l2;
                        attendance := attendance d |}).
Proof.
  intros Hoid Hin Hid.
  apply by_id_true in Hid.
  destruct (update_one_some (by_id oid) (deactivate now) _ e Hin Hid)
    as (l1 & x & l2 & Hcoll & Px & Hl1 & Hupd).
  exists l1, x, l2.
  split; [| split; [| split]].
  - assumption.
  - now apply by_id_true.
  - intros y Hy. apply by_id_false. now apply Hl1.
  - unfold remove_employee. simpl. rewrite Hoid. simpl.
    rewrite Hupd. reflexivity.
Qed.

Lemma remove_employee_missing (eid : string) (now : Z) (d : Database F)
    (oid : ObjectId) :
  ObjectId_of_str eid = Some oid ->
  (forall e, In e (employee d) -> e__id e <> oid) ->
  remove_employee eid now (Some d) = HTTPException 404 "Employee not found".
Proof.
  intros Hoid Hnone. unfold remove_employee. simpl. rewrite Hoid. simpl.
  rewrite update_one_none; [reflexivity |].
  intros x Hx. apply by_id_false. now apply Hnone.
Qed.

(** C9: removing an employee that is on file but already inactive succeeds
    with status "ok" instead of failing with 404: the update matches on the
    identifier alone.  The removal is idempotent: the attendance collection
    is untouched and, identifiers being unique, so is every employee as the
    listing shows it. *)
Theorem remove_employee_inactive_ok (eid : string) (now : Z) (d : Database F)
    (oid : ObjectId) (e : Employee) :
  ObjectId_of_str eid = Some oid ->
  In e (employee d) -> e__id e = oid -> e_is_active e = false ->
  exists d' : Database F,
    remove_employee eid now (Some d) = Ok ("ok", Some d') /\
    attendance d' = attendance d /\
    (unique_ids (Some d) ->
     map employee_out (employee d') = map employee_out (employee d)).
Proof.
  intros Hoid Hin Hid Hact.
  destruct (remove_employee_found eid now d oid e Hoid Hin Hid)
    as (l1 & x & l2 & Hcoll & Hx & Hl1 & Hrem).
  eexists. split; [exact Hrem |]. split; [reflexivity |].
  simpl. intro U. unfold unique_ids in U. simpl in U.
  rewrite Hcoll in *. rewrite !map_app. simpl.
  rewrite deactivate_out_inactive; [reflexivity |].
  apply in_app_or in Hin. destruct Hin as [Hin | [-> | Hin]].
  - exfalso. now apply (Hl1 e Hin).
  - assumption.
  - exfalso. rewrite map_app in U. simpl in U.
    apply NoDup_remove_2 in U. apply U.
    apply in_or_app. right. rewrite Hx, <- Hid. now apply in_map.
Qed.

Lemma str_inj (a b : ObjectId) : str a = str b -> a = b.
Proof. destruct a, b; simpl. congruence. Qed.

Lemma insert_desc_perm {A : Type} (key : A -> Z) (d : A) (l : list A) :
  Permutation (insert_desc key d l) (d :: l).
Proof.
  induction l as [| x l IH]; simpl.
  - apply Permutation_refl.
  - destruct (key x <=? key d)%Z.
    + apply Permutation_refl.
    + apply perm_trans with (x :: d :: l).
      * now apply perm_skip.
      * apply perm_swap.
Qed.

Lemma sort_desc_perm {A : Type} (key : A -> Z) (l : list A) :
  Permutation (sort_desc key l) l.
Proof.
  induction l as [| d l IH]; simpl.
  - apply perm_nil.
  - apply perm_trans with (d :: sort_desc key l).
    + apply insert_desc_perm.
    + now apply perm_skip.
Qed.

(** Whatever the search term, the query of the listing selects active
    employees only. *)
Lemma employee_filter_active (q : option string) (fq : Employee -> bool)
    (e : Employee) :
  employee_filter q = Ok fq -> fq e = true -> e_is_active e = true.
Proof.
  unfold employee_filter.
  destruct q as [s |].
  - destruct (truthy s).
    + destruct (regex_i s) as [m |]; [| discriminate].
      intro H. injection H as <-. intro B.
      now apply andb_true_iff in B.
    + intro H. now injection H as <-.
  - intro H. now injection H as <-.
Qed.

Lemma list_employees_sound (q : option string) (db : option (Database F))
    (res : list EmployeeOut) (o : EmployeeOut) :
  list_employees q db = Ok res -> In o res ->
  exists d e,
    db = Some d /\ In e (employee d) /\ e_is_active e = true /\
    o = employee_out e.
Proof.
  unfold list_employees.
  destruct db as [d |]; simpl; [| discriminate].
  destruct (employee_filter q) as [fq | |] eqn:Efq; simpl; try discriminate.
  intro H. injection H as <-. intro Hin.
  apply in_map_iff in Hin. destruct Hin as (e & <- & Hin).
  apply (Permutation_in _ (sort_desc_perm e_created_at _)) in Hin.
  apply filter_In in Hin. destruct Hin as [Hin Hfq].
  exists d, e. repeat split; try assumption.
  exact (employee_filter_active q fq e Efq Hfq).
Qed.

Lemma remove_employee_inv (eid : string) (now : Z) (db db1 : option (Database F))
    (r : string) :
  remove_employee eid now db = Ok (r, db1) ->
  exists d oid l1 x l2,
    db = Some d /\ ObjectId_of_str eid = Some oid /\
    employee d = l1 ++ x :: l2 /\ e__id x = oid /\
    (forall y, In y l1 -> e__id y <> oid) /\
    r = "ok" /\
    db1 = Some {| employee := l1 ++ deactivate now x :: l2;
                  attendance := attendance d |}.
Proof.
  intro H.
  destruct db as [d |]; [| discriminate H].
  destruct (ObjectId_of_str eid) as [oid |] eqn:Hoid;
    [| unfold remove_employee in H; simpl in H; rewrite Hoid in H;
       discriminate H].
  destruct (find (by_id oid) (employee d)) as [e |] eqn:Hfind.
  - apply find_some in Hfind. destruct Hfind as [Hin Hid].
    apply by_id_true in Hid.
    destruct (remove_employee_found eid now d oid e Hoid Hin Hid)
      as (l1 & x & l2 & Hcoll & Hx & Hl1 & Hrem).
    rewrite Hrem in H. injection H as <- <-.
    exists d, oid, l1, x, l2. repeat split; assumption.
  - rewrite (remove_employee_missing eid now d oid Hoid) in H;
      [discriminate H |].
    intros e He. apply by_id_false.
    exact (find_none _ _ Hfind e He).
Qed.

Lemma remove_employee_soft_deletes (eid : string) (now : Z)
    (db db1 : option (Database F)) (r : string) (oid : ObjectId) :
  unique_ids db ->
  ObjectId_of_str eid = Some oid ->
  remove_employee eid now db = Ok (r, db1) ->
  soft_deleted oid db1.
Proof.
  intros U Hoid H.
  destruct (remove_employee_inv eid now db db1 r H)
    as (d & oid' & l1 & x & l2 & -> & Hoid' & Hcoll & Hx & Hl1 & _ & ->).
  rewrite Hoid in Hoid'. injection Hoid' as <-.
  unfold unique_ids in U. simpl in U. rewrite Hcoll, map_app in U.
  simpl in U. apply NoDup_remove_2 in U.
  simpl. split.
  - exists (deactivate now x). split; [| exact Hx].
    apply in_or_app. right. now left.
  - intros e Hin Hid.
    apply in_app_or in Hin. destruct Hin as [Hin | [<- | Hin]].
    + exfalso. now apply (Hl1 e Hin).
    + reflexivity.
    + exfalso. apply U. apply in_or_app. right.
      rewrite Hx, <- Hid. now apply in_map.
Qed.

Lemma soft_deleted_update (oid oid' : ObjectId) (now : Z) (d : Database F)
    (l1 l2 : list Employee) (x : Employee) :
  employee d = l1 ++ x :: l2 ->
  soft_deleted oid (Some d) ->
  soft_deleted oid
    (Some {| employee := l1 ++ deactivate now x :: l2;
             attendance := attendance d |}).
Proof.
  intros Hcoll [[e [Hin Hid]] Hall]. simpl in *. rewrite Hcoll in *. split.
  - apply in_app_or in Hin. destruct Hin as [Hin | [<- | Hin]].
    + exists e. split; [apply in_or_app; now left | assumption].
    + exists (deactivate now x). split; [| assumption].
      apply in_or_app. right. now left.
    + exists e. split; [apply in_or_app; right; now right | assumption].
  - intros e' Hin' Hid'.
    apply in_app_or in Hin'. destruct Hin' as [Hin' | [<- | Hin']].
    + apply Hall; [apply in_or_app; now left | assumption].
    + reflexivity.
    + apply Hall; [apply in_or_app; right; now right | assumption].
Qed.

(** No request reactivates a soft-deleted employee. *)
Lemma run_soft_deleted (cfg : Config F) (c : call F) (oid : ObjectId)
    (db : option (Database F)) :
  admissible c db -> soft_deleted oid db -> soft_deleted oid (run cfg c db).
Proof.
  intros Adm SD.
  destruct c as [p i n | q | eid n | p i n t | ds t | eid st en]; simpl;
    try assumption.
  - destruct db as [d |]; [| destruct SD]. simpl.
    destruct SD as [[e [Hin Hid]] Hall]. split.
    + exists e. split; [apply in_or_app; now left | assumption].
    + intros e' Hin' Hid'.
      apply in_app_or in Hin'. destruct Hin' as [Hin' | [<- | []]].
      * now apply Hall.
      * exfalso. simpl in Hid', Adm. apply Adm.
        rewrite Hid', <- Hid. now apply in_map.
  - destruct (remove_employee eid n db) as [[r db1] | |] eqn:H; simpl;
      try assumption.
    destruct (remove_employee_inv eid n db db1 r H)
      as (d & oid' & l1 & x & l2 & -> & _ & Hcoll & _ & _ & _ & ->).
    now apply soft_deleted_update with (oid' := oid').
  - destruct (mark_attendance cfg p i n t db) as [[out db1] | |] eqn:H; simpl;
      try assumption.
    destruct (mark_attendance_ok _ _ _ _ _ _ _ _ H) as (d & -> & _ & ->).
    exact SD.
Qed.

Lemma later_soft_deleted (cfg : Config F) (oid : ObjectId)
    (db db' : option (Database F)) :
  later cfg db db' -> soft_deleted oid db -> soft_deleted oid db'.
Proof.
  induction 1 as [db | db c db' Adm _ IH]; intro SD.
  - assumption.
  - apply IH. now apply run_soft_deleted.
Qed.

(** Unique identifiers are an invariant of the store. *)
Lemma run_unique_ids (cfg : Config F) (c : call F) (db : option (Database F)) :
  admissible c db -> unique_ids db -> unique_ids (run cfg c db).
Proof.
  intros Adm U.
  destruct c as [p i n | q | eid n | p i n t | ds t | eid st en]; simpl;
    try assumption.
  - destruct db as [d |]; [| assumption].
    unfold unique_ids in *. simpl in *. rewrite map_app. simpl.
    apply (Permutation_NoDup (l := i :: map e__id (employee d))).
    + apply Permutation_cons_append.
    + now constructor.
  - destruct (remove_employee eid n db) as [[r db1] | |] eqn:H; simpl;
      try assumption.
    destruct (remove_employee_inv eid n db db1 r H)
      as (d & oid' & l1 & x & l2 & -> & _ & Hcoll & _ & _ & _ & ->).
    unfold unique_ids in *. simpl in *.
    rewrite Hcoll in U. now rewrite map_app in *.
  - destruct (mark_attendance cfg p i n t db) as [[out db1] | |] eqn:H; simpl;
      try assumption.
    destruct (mark_attendance_ok _ _ _ _ _ _ _ _ H) as (d & -> & _ & ->).
    exact U.
Qed.

Lemma later_unique_ids (cfg : Config F) (db db' : option (Database F)) :
  later cfg db db' -> unique_ids db -> unique_ids db'.
Proof.
  induction 1 as [db | db c db' Adm _ IH]; intro U.
  - assumption.
  - apply IH. now apply run_unique_ids.
Qed.

(** C4: after a successful soft-delete of an employee, every later call of
    list-employees leaves that employee out of its results, and every later
    call of mark-attendance for that identifier fails with 404 (not found),
    whatever requests are served in between. *)
Theorem soft_delete_excludes (cfg : Config F) (eid : string) (now : Z)
    (db db1 db2 : option (Database F)) (r : string) (oid : ObjectId) :
  unique_ids db ->
  ObjectId_of_str eid = Some oid ->
  remove_employee eid now db = Ok (r, db1) ->
  later cfg db1 db2 ->
  (forall (q : option string) (res : list EmployeeOut),
     list_employees q db2 = Ok res -> ~ In (str oid) (map eo_id res)) /\
  (forall (payload : AttendanceMarkIn F) (new_id : ObjectId) (now' : Z)
          (today : string),
     ObjectId_of_str (employee_id payload) = Some oid ->
     mark_attendance cfg payload new_id now' today db2 =
       HTTPException 404 "Employee not found or inactive").
Proof.
  intros U Hoid Hrem Hlater.
  pose proof (remove_employee_soft_deletes eid now db db1 r oid U Hoid Hrem)
    as SD1.
  pose proof (later_soft_deleted cfg oid db1 db2 Hlater SD1) as SD.
  destruct db2 as [d2 |]; [| destruct SD].
  destruct SD as [_ Hall]. split.
  - intros q res Hres Hin.
    apply in_map_iff in Hin. destruct Hin as (o & Ho & Hin).
    destruct (list_employees_sound q _ res o Hres Hin)
      as (d & e & Hd & He & Hact & ->).
    injection Hd as <-.
    simpl in Ho. apply str_inj in Ho.
    rewrite (Hall e He Ho) in Hact. discriminate.
  - intros payload new_id now' today Hp.
    now apply mark_attendance_not_found with (oid := oid).
Qed.

(** ** Daily roster *)

Lemma lookup_employee_ok (emp_coll : list Employee) (a : Attendance F)
    (emp : option Employee) :
  lookup_employee emp_coll a = Ok emp ->
  emp = point_lookup emp_coll (a_employee_id a).
Proof.
  unfold lookup_employee, point_lookup.
  destruct (a_employee_id a) as [| c s]; simpl.
  - intro H. now injection H as <-.
  - destruct (ObjectId_of_str (String c s)); [| discriminate].
    intro H. now injection H as <-.
Qed.

Lemma daily_records_ok (emp_coll : list Employee) (docs : list (Attendance F))
    (recs : list (DailyRecord F)) :
  daily_records emp_coll docs = Ok recs ->
  recs = map (fun a => daily_record a (point_lookup emp_coll (a_employee_id a)))
             docs.
Proof.
  revert recs. induction docs as [| a docs IH]; simpl; intros recs H.
  - now injection H as <-.
  - destruct (lookup_employee emp_coll a) as [emp | |] eqn:E; simpl in H;
      try discriminate H.
    destruct (daily_records emp_coll docs) as [recs' | |]; simpl in H;
      try discriminate H.
    injection H as <-.
    rewrite (lookup_employee_ok _ _ _ E), (IH recs' eq_refl). reflexivity.
Qed.

Lemma daily_records_total (emp_coll : list Employee)
    (docs : list (Attendance F)) :
  (forall a, In a docs -> truthy (a_employee_id a) = true ->
             ObjectId_of_str (a_employee_id a) <> None) ->
  exists recs, daily_records emp_coll docs = Ok recs.
Proof.
  induction docs as [| a docs IH]; simpl; intro W.
  - now exists [].
  - destruct IH as [recs ->]; [intros b Hb; apply W; now right |].
    unfold lookup_employee.
    destruct (truthy (a_employee_id a)) eqn:T; simpl.
    + destruct (ObjectId_of_str (a_employee_id a)) eqn:E; simpl.
      * eexists. reflexivity.
      * exfalso. exact (W a (or_introl eq_refl) T E).
    + eexists. reflexivity.
Qed.

Lemma point_lookup_none (emp_coll : list Employee) (employee_id : string) :
  point_lookup emp_coll employee_id = None <->
  (forall oid e, ObjectId_of_str employee_id = Some oid ->
                 In e emp_coll -> e__id e <> oid).
Proof.
  unfold point_lookup, find_one.
  destruct (ObjectId_of_str employee_id) as [oid |].
  - split.
    + intros H oid' e Eo He. injection Eo as <-.
      apply by_id_false. exact (find_none _ _ H e He).
    + intro H. destruct (find (by_id oid) emp_coll) as [e |] eqn:E;
        [| reflexivity].
      apply find_some in E. destruct E as [He Hb].
      apply by_id_true in Hb. now destruct (H oid e eq_refl He).
  - split; [discriminate | reflexivity].
Qed.

(** C5 (amended): every record of a daily roster carries the name found by
    point lookup of its employee identifier, whatever that employee's
    active flag; the name is null exactly when no employee document has the
    identifier.  The roster is produced whenever the attendance records
    carry well-formed or empty employee identifiers. *)
Theorem attendance_daily_names (date_str : option string) (today : string)
    (d : Database F) :
  (forall resp : DailyOut F,
     attendance_daily date_str today (Some d) = Ok resp ->
     Forall2
       (fun a r =>
          dr_id r = str (a__id a) /\
          dr_employee_id r = a_employee_id a /\
          dr_employee_name r =
            option_map e_name (point_lookup (employee d) (a_employee_id a)))
       (filter (fun a => String.eqb (a_date a) (d_date resp)) (attendance d))
       (d_records resp) /\
     (forall r, In r (d_records resp) ->
        (dr_employee_name r = None <->
         forall oid e, ObjectId_of_str (dr_employee_id r) = Some oid ->
                       In e (employee d) -> e__id e <> oid))) /\
  ((forall a, In a (attendance d) -> truthy (a_employee_id a) = true ->
              ObjectId_of_str (a_employee_id a) <> None) ->
   exists resp : DailyOut F,
     attendance_daily date_str today (Some d) = Ok resp).
Proof.
  unfold attendance_daily. simpl.
  set (day := match date_str with
              | Some s => if truthy s then s else today
              | None => today
              end).
  set (docs := filter (fun a => String.eqb (a_date a) day) (attendance d)).
  split.
  - intros resp H.
    destruct (daily_records (employee d) docs) as [recs | |] eqn:E;
      simpl in H; try discriminate H.
    injection H as <-. simpl. fold docs.
    rewrite (daily_records_ok _ _ _ E). split.
    + clear E. induction docs as [| a docs' IH]; simpl; constructor.
      * repeat split.
      * exact IH.
    + intros r Hr. apply in_map_iff in Hr. destruct Hr as (a & <- & _).
      simpl. rewrite <- point_lookup_none.
      destruct (point_lookup (employee d) (a_employee_id a)); simpl;
        split; congruence.
  - intro W.
    destruct (daily_records_total (employee d) docs) as [recs ->].
    + intros a Ha. apply W. unfold docs in Ha. now apply filter_In in Ha.
    + simpl. eexists. reflexivity.
Qed.

(** ** Listing employees *)

Lemma insert_desc_sorted {A : Type} (key : A -> Z) (d : A) (l : list A) :
  StronglySorted (fun a b => (key b <= key a)%Z) l ->
  StronglySorted (fun a b => (key b <= key a)%Z) (insert_desc key d l).
Proof.
  induction l as [| x l IH]; simpl; intro S.
  - constructor; constructor.
  - inversion S as [| ? ? Sl Fx]; subst.
    destruct (key x <=? key d)%Z eqn:E.
    + apply Z.leb_le in E. constructor; [assumption |].
      constructor; [assumption |].
      apply Forall_impl with (2 := Fx). intros; lia.
    + apply Z.leb_gt in E. constructor; [now apply IH |].
      apply (Permutation_Forall (Permutation_sym (insert_desc_perm key d l))).
      constructor; [lia | assumption].
Qed.

Lemma sort_desc_sorted {A : Type} (key : A -> Z) (l : list A) :
  StronglySorted (fun a b => (key b <= key a)%Z) (sort_desc key l).
Proof.
  induction l as [| d l IH]; simpl.
  - constructor.
  - now apply insert_desc_sorted.
Qed.



(** ** Ordering of dates *)

Lemma ascii_compare_refl (a : ascii) : Ascii.compare a a = Eq.
Proof. unfold Ascii.compare. apply N.compare_refl. Qed.

Lemma ascii_compare_lt_trans (a b c : ascii) :
  Ascii.compare a b = Lt -> Ascii.compare b c = Lt -> Ascii.compare a c = Lt.
Proof.
  unfold Ascii.compare. rewrite !N.compare_lt_iff. apply N.lt_trans.
Qed.

Lemma string_leb_trans (a b c : string) :
  String.leb a b = true -> String.leb b c = true -> String.leb a c = true.
Proof.
  revert b c. induction a as [| x a IH]; intros [| y b] [| z c];
    unfold String.leb; simpl; try easy.
  destruct (Ascii.compare x y) eqn:Exy; try easy;
    destruct (Ascii.compare y z) eqn:Eyz; try easy.
  - apply Ascii.compare_eq_iff in Exy, Eyz. subst.
    rewrite ascii_compare_refl. apply IH.
  - apply Ascii.compare_eq_iff in Exy. subst. now rewrite Eyz.
  - apply Ascii.compare_eq_iff in Eyz. subst. now rewrite Exy.
  - now rewrite (ascii_compare_lt_trans _ _ _ Exy Eyz).
Qed.

Lemma string_leb_neq_ltb (a b : string) :
  String.leb a b = true -> a <> b -> String.ltb a b = true.
Proof.
  unfold String.leb, String.ltb.
  destruct (String.compare a b) eqn:E; try easy.
  apply String.compare_eq_iff in E. congruence.
Qed.

(** ** The dictionary of per-day tallies *)

Lemma list_sum_perm (l l' : list nat) :
  Permutation l l' -> list_sum l = list_sum l'.
Proof. induction 1; simpl; lia. Qed.

Lemma insert_item_perm (kv : string * DayTally) (l : list (string * DayTally)) :
  Permutation (insert_item kv l) (kv :: l).
Proof.
  induction l as [| x l IH]; simpl.
  - apply Permutation_refl.
  - destruct (String.leb (fst kv) (fst x)).
    + apply Permutation_refl.
    + apply perm_trans with (x :: kv :: l);
        [now apply perm_skip | apply perm_swap].
Qed.

Lemma sorted_items_perm (l : list (string * DayTally)) :
  Permutation (sorted_items l) l.
Proof.
  induction l as [| kv l IH]; simpl.
  - apply perm_nil.
  - apply perm_trans with (kv :: sorted_items l);
      [apply insert_item_perm | now apply perm_skip].
Qed.

Lemma insert_item_sorted (kv : string * DayTally)
    (l : list (string * DayTally)) :
  StronglySorted key_le l -> StronglySorted key_le (insert_item kv l).
Proof.
  induction l as [| x l IH]; simpl; intro S.
  - constructor; constructor.
  - inversion S as [| ? ? Sl Fx]; subst.
    destruct (String.leb (fst kv) (fst x)) eqn:E.
    + constructor; [assumption |].
      constructor; [exact E |].
      apply Forall_impl with (2 := Fx).
      intros y Hy. exact (string_leb_trans _ _ _ E Hy).
    + constructor; [now apply IH |].
      apply (Permutation_Forall (Permutation_sym (insert_item_perm kv l))).
      constructor; [| assumption].
      unfold key_le. destruct (String.leb_total (fst kv) (fst x)); congruence.
Qed.

Lemma sorted_items_sorted (l : list (string * DayTally)) :
  StronglySorted key_le (sorted_items l).
Proof.
  induction l as [| kv l IH]; simpl.
  - constructor.
  - now apply insert_item_sorted.
Qed.

(** Sorted keys without repetition are strictly increasing. *)
Lemma sorted_keys_strict (l : list (string * DayTally)) :
  StronglySorted key_le l -> NoDup (keys l) ->
  StronglySorted (fun a b => String.ltb a b = true) (keys l).
Proof.
  induction 1 as [| x l S IH Fx]; simpl; intro N.
  - constructor.
  - inversion N as [| ? ? Nx Nl]; subst.
    constructor; [now apply IH |].
    apply Forall_forall. intros k Hk.
    unfold keys in Hk. apply in_map_iff in Hk. destruct Hk as (y & <- & Hy).
    apply string_leb_neq_ltb.
    + exact (proj1 (Forall_forall _ _) Fx y Hy).
    + intro E. apply Nx. unfold keys. rewrite E. now apply in_map.
Qed.

Lemma tally_of_in (k : string) (t : DayTally)
    (by_date : list (string * DayTally)) :
  NoDup (keys by_date) -> In (k, t) by_date -> tally_of k by_date = Some t.
Proof.
  induction by_date as [| [k' t'] rest IH]; simpl; intros N Hin.
  - destruct Hin.
  - inversion N as [| ? ? Nk Nrest]; subst.
    destruct Hin as [E | Hin].
    + injection E as -> ->. now rewrite String.eqb_refl.
    + destruct (String.eqb k' k) eqn:E.
      * apply String.eqb_eq in E. subst. exfalso. apply Nk.
        unfold keys. change k with (fst (k, t)). now apply in_map.
      * now apply IH.
Qed.

Lemma incr_cases (status : string) (t t' : DayTally) :
  incr status t = Some t' ->
  (status = "present" /\ present t' = S (present t) /\ absent t' = absent t) \/
  (status = "absent" /\ present t' = present t /\ absent t' = S (absent t)).
Proof.
  unfold incr.
  destruct (String.eqb status "present") eqn:P.
  - apply String.eqb_eq in P. intro H. injection H as <-. left. now subst.
  - destruct (String.eqb status "absent") eqn:A; [| discriminate].
    apply String.eqb_eq in A. intro H. injection H as <-. right. now subst.
Qed.

Lemma setdefault_keys (k0 k : string) (v : DayTally)
    (by_date : list (string * DayTally)) :
  In k (keys (setdefault k0 v by_date)) <-> k = k0 \/ In k (keys by_date).
Proof.
  induction by_date as [| [k' t'] rest IH]; simpl.
  - split; [intros [<- | []]; now left | intros [-> | []]; now left].
  - destruct (String.eqb k' k0) eqn:E; simpl.
    + apply String.eqb_eq in E. subst. split.
      * intros [<- | H]; right; [now left | now right].
      * intros [-> | [<- | H]]; [now left | now left | now right].
    + unfold keys in IH. rewrite IH. split.
      * intros [<- | [-> | H]]; [right; now left | now left | right; now right].
      * intros [-> | [<- | H]]; [right; now left | now left | right; now right].
Qed.

Lemma setdefault_nodup (k0 : string) (v : DayTally)
    (by_date : list (string * DayTally)) :
  NoDup (keys by_date) -> NoDup (keys (setdefault k0 v by_date)).
Proof.
  induction by_date as [| [k' t'] rest IH]; simpl; intro N.
  - constructor; [intros [] | constructor].
  - destruct (String.eqb k' k0) eqn:E; [assumption |].
    inversion N as [| ? ? Nk Nrest]; subst. simpl.
    constructor; [| now apply IH].
    intro H. apply setdefault_keys in H. destruct H as [-> | H].
    + now rewrite String.eqb_refl in E.
    + now apply Nk.
Qed.

Lemma setdefault_tally_of (k0 k : string) (v : DayTally)
    (by_date : list (string * DayTally)) :
  tally_of k (setdefault k0 v by_date) =
  match tally_of k by_date with
  | Some t => Some t
  | None => if String.eqb k0 k then Some v else None
  end.
Proof.
  induction by_date as [| [k' t'] rest IH]; simpl.
  - reflexivity.
  - destruct (String.eqb k' k0) eqn:E; simpl.
    + destruct (String.eqb k' k) eqn:E'; [reflexivity |].
      apply String.eqb_eq in E. subst. rewrite E'.
      now destruct (tally_of k rest).
    + destruct (String.eqb k' k); [reflexivity | exact IH].
Qed.

Lemma setdefault_totals (k0 : string) (by_date : list (string * DayTally)) :
  total_present (setdefault k0 {| present := 0; absent := 0 |} by_date) =
    total_present by_date /\
  total_absent (setdefault k0 {| present := 0; absent := 0 |} by_date) =
    total_absent by_date.
Proof.
  unfold total_present, total_absent.
  induction by_date as [| [k' t'] rest [IHp IHa]]; simpl.
  - split; reflexivity.
  - destruct (String.eqb k' k0); simpl; [split; reflexivity |].
    rewrite IHp, IHa. split; reflexivity.
Qed.

Lemma incr_at_spec (k0 status : string)
    (by_date by_date' : list (string * DayTally)) :
  incr_at k0 status by_date = Some by_date' ->
  keys by_date' = keys by_date /\
  exists t t',
    tally_of k0 by_date = Some t /\ incr status t = Some t' /\
    (forall k, tally_of k by_date' =
               if String.eqb k0 k then Some t' else tally_of k by_date) /\
    total_present by_date' + present t = total_present by_date + present t' /\
    total_absent by_date' + absent t = total_absent by_date + absent t'.
Proof.
  revert by_date'.
  induction by_date as [| [k' t] rest IH]; simpl; intros by_date' H.
  - discriminate H.
  - destruct (String.eqb k' k0) eqn:E.
    + destruct (incr status t) as [t' |] eqn:I; [| discriminate H].
      injection H as <-. apply String.eqb_eq in E. subst k'.
      split; [reflexivity |].
      exists t, t'. split; [reflexivity |]. split; [exact I |].
      split; [| unfold total_present, total_absent; simpl; lia].
      intro k. simpl. now destruct (String.eqb k0 k).
    + destruct (incr_at k0 status rest) as [rest' |] eqn:R; [| discriminate H].
      injection H as <-.
      destruct (IH rest' eq_refl) as (Hk & t0 & t' & Ht0 & Hi & Hget & Hp & Ha).
      split; [simpl; now f_equal |].
      exists t0, t'. split; [assumption |]. split; [assumption |].
      split.
      * intro k. simpl. rewrite Hget.
        destruct (String.eqb k' k) eqn:E'; [| reflexivity].
        destruct (String.eqb k0 k) eqn:E0; [| reflexivity].
        apply String.eqb_eq in E', E0. subst.
        now rewrite String.eqb_refl in E.
      * unfold total_present, total_absent in *. simpl. lia.
Qed.

Lemma incr_at_total (k0 status : string)
    (by_date : list (string * DayTally)) :
  status = "present" \/ status = "absent" ->
  In k0 (keys by_date) ->
  exists by_date', incr_at k0 status by_date = Some by_date'.
Proof.
  intro V. induction by_date as [| [k' t] rest IH]; simpl; intro Hin.
  - destruct Hin.
  - destruct (String.eqb k' k0) eqn:E.
    + unfold incr. destruct V as [-> | ->]; simpl; eexists; reflexivity.
    + destruct Hin as [-> | Hin]; [now rewrite String.eqb_refl in E |].
      destruct (IH Hin) as [rest' ->]. simpl. eexists. reflexivity.
Qed.

(** One turn of the grouping loop. *)
Lemma tally_doc_spec (a : Attendance F)
    (by_date by_date' : list (string * DayTally)) :
  tally_doc a by_date = Some by_date' ->
  (NoDup (keys by_date) -> NoDup (keys by_date')) /\
  (forall k, In k (keys by_date') <-> k = a_date a \/ In k (keys by_date)) /\
  (forall k, present_on k by_date' = present_on k by_date + hit k "present" a) /\
  (forall k, absent_on k by_date' = absent_on k by_date + hit k "absent" a) /\
  total_present by_date' =
    total_present by_date +
    (if String.eqb (a_status a) "present" then 1 else 0)%nat /\
  total_absent by_date' =
    total_absent by_date +
    (if String.eqb (a_status a) "absent" then 1 else 0)%nat.
Proof.
  unfold tally_doc. intro H.
  set (zero := {| present := 0; absent := 0 |}) in *.
  destruct (incr_at_spec _ _ _ _ H)
    as (Hk & t & t' & Ht & Hi & Hget & Hp & Ha).
  destruct (setdefault_totals (a_date a) by_date) as [Sp Sa].
  fold zero in Sp, Sa. rewrite Sp in Hp. rewrite Sa in Ha.
  assert (present t = present_on (a_date a) by_date /\
          absent t = absent_on (a_date a) by_date) as [Tp Ta].
  { rewrite setdefault_tally_of in Ht. unfold present_on, absent_on.
    destruct (tally_of (a_date a) by_date).
    - injection Ht as <-. now split.
    - rewrite String.eqb_refl in Ht. injection Ht as <-. now split. }
  assert (forall k, String.eqb (a_date a) k = false ->
            tally_of k by_date' = tally_of k by_date) as Hother.
  { intros k E. rewrite Hget, E, setdefault_tally_of, E.
    now destruct (tally_of k by_date). }
  split; [| split; [| split; [| split; [| split]]]].
  - intro N. rewrite Hk. now apply setdefault_nodup.
  - intro k. rewrite Hk. apply setdefault_keys.
  - intro k. unfold hit. destruct (String.eqb (a_date a) k) eqn:E; simpl.
    + apply String.eqb_eq in E. subst k.
      unfold present_on at 1. rewrite Hget, String.eqb_refl, <- Tp.
      destruct (incr_cases _ _ _ Hi) as [(-> & P & _) | (-> & P & _)];
        simpl; lia.
    + unfold present_on. rewrite (Hother k E). lia.
  - intro k. unfold hit. destruct (String.eqb (a_date a) k) eqn:E; simpl.
    + apply String.eqb_eq in E. subst k.
      unfold absent_on at 1. rewrite Hget, String.eqb_refl, <- Ta.
      destruct (incr_cases _ _ _ Hi) as [(-> & _ & A) | (-> & _ & A)];
        simpl; lia.
    + unfold absent_on. rewrite (Hother k E). lia.
  - destruct (incr_cases _ _ _ Hi) as [(-> & P & _) | (-> & P & _)];
      simpl; lia.
  - destruct (incr_cases _ _ _ Hi) as [(-> & _ & A) | (-> & _ & A)];
      simpl; lia.
Qed.

Lemma count_on_cons (k s : string) (a : Attendance F)
    (docs : list (Attendance F)) :
  count_on k s (a :: docs) = (hit k s a + count_on k s docs)%nat.
Proof.
  unfold count_on, hit. simpl.
  now destruct (String.eqb (a_date a) k && String.eqb (a_status a) s).
Qed.

Lemma count_status_cons (s : string) (a : Attendance F)
    (docs : list (Attendance F)) :
  count_status s (a :: docs) =
  ((if String.eqb (a_status a) s then 1 else 0) + count_status s docs)%nat.
Proof.
  unfold count_status. simpl. now destruct (String.eqb (a_status a) s).
Qed.

(** The dictionary built by the grouping loop. *)
Lemma group_by_date_spec (docs : list (Attendance F))
    (by_date by_date' : list (string * DayTally)) :
  group_by_date docs by_date = Ok by_date' ->
  (NoDup (keys by_date) -> NoDup (keys by_date')) /\
  (forall k, In k (keys by_date') <->
             In k (keys by_date) \/ In k (map a_date docs)) /\
  (forall k, present_on k by_date' =
             present_on k by_date + count_on k "present" docs) /\
  (forall k, absent_on k by_date' =
             absent_on k by_date + count_on k "absent" docs) /\
  total_present by_date' = total_present by_date + count_status "present" docs /\
  total_absent by_date' = total_absent by_date + count_status "absent" docs.
Proof.
  revert by_date.
  induction docs as [| a docs IH]; simpl; intros by_date H.
  - injection H as <-.
    split; [easy |]. split; [intro k; tauto |].
    unfold count_on, count_status. simpl.
    repeat split; intros; lia.
  - destruct (tally_doc a by_date) as [bd1 |] eqn:T; [| discriminate H].
    destruct (tally_doc_spec _ _ _ T) as (N1 & K1 & P1 & A1 & TP1 & TA1).
    destruct (IH _ H) as (N2 & K2 & P2 & A2 & TP2 & TA2).
    split; [auto |].
    split; [intro k; rewrite K2, K1; simpl; intuition auto |].
    split; [intro k; rewrite P2, P1, count_on_cons; lia |].
    split; [intro k; rewrite A2, A1, count_on_cons; lia |].
    rewrite TP2, TP1, TA2, TA1, !count_status_cons. lia.
Qed.

Lemma group_by_date_total (docs : list (Attendance F))
    (by_date : list (string * DayTally)) :
  (forall a, In a docs -> a_status a = "present" \/ a_status a = "absent") ->
  exists by_date', group_by_date docs by_date = Ok by_date'.
Proof.
  revert by_date. induction docs as [| a docs IH]; simpl; intros by_date V.
  - eexists. reflexivity.
  - destruct (incr_at_total (a_date a) (a_status a)
                (setdefault (a_date a) {| present := 0; absent := 0 |} by_date))
      as [bd1 E].
    + apply V. now left.
    + apply setdefault_keys. now left.
    + unfold tally_doc. rewrite E. apply IH. intros b Hb. apply V. now right.
Qed.

(** ** Per-employee summary *)

Lemma series_dates (l : list (string * DayTally)) :
  map s_date (map series_entry l) = keys l.
Proof. unfold keys. rewrite map_map. reflexivity. Qed.

Lemma series_present (l : list (string * DayTally)) :
  list_sum (map s_present (map series_entry l)) = total_present l.
Proof. unfold total_present. rewrite map_map. reflexivity. Qed.

Lemma series_absent (l : list (string * DayTally)) :
  list_sum (map s_absent (map series_entry l)) = total_absent l.
Proof. unfold total_absent. rewrite map_map. reflexivity. Qed.

(** C7: in every per-employee summary, the series has one entry per date of
    the matching attendance records, in strictly ascending order of date,
    each entry tallies the records of its date, and the top-level present
    and absent totals equal the sums of the per-day tallies.  A summary is
    produced whenever every matching record is present or absent. *)
Theorem attendance_summary_series (employee_id : string)
    (start end_ : option string) (d : Database F) :
  let docs := filter (summary_filter employee_id start end_) (attendance d) in
  (forall resp : SummaryOut,
     attendance_summary employee_id start end_ (Some d) = Ok resp ->
     StronglySorted (fun a b => String.ltb a b = true)
                    (map s_date (so_series resp)) /\
     (forall k, In k (map s_date (so_series resp)) <-> In k (map a_date docs)) /\
     (forall e, In e (so_series resp) ->
        s_present e = count_on (s_date e) "present" docs /\
        s_absent e = count_on (s_date e) "absent" docs) /\
     so_present resp = list_sum (map s_present (so_series resp)) /\
     so_absent resp = list_sum (map s_absent (so_series resp))) /\
  ((forall a, In a docs -> a_status a = "present" \/ a_status a = "absent") ->
   exists resp : SummaryOut,
     attendance_summary employee_id start end_ (Some d) = Ok resp).
Proof.
  intro docs. unfold attendance_summary. simpl. fold docs. split.
  - intros resp H.
    destruct (group_by_date docs []) as [bd | |] eqn:G; simpl in H;
      try discriminate H.
    injection H as <-. simpl.
    destruct (group_by_date_spec _ _ _ G) as (N & K & P & A & TP & TA).
    pose proof (sorted_items_perm bd) as Perm.
    assert (NoDup (keys bd)) as Nbd by (apply N; constructor).
    assert (NoDup (keys (sorted_items bd))) as Ns.
    { apply (Permutation_NoDup (l := keys bd)); [| assumption].
      apply Permutation_map. now apply Permutation_sym. }
    rewrite series_dates, series_present, series_absent.
    split; [| split; [| split; [| split]]].
    + apply sorted_keys_strict; [apply sorted_items_sorted | assumption].
    + intro k. split; intro H.
      * apply (Permutation_in _ (Permutation_map fst Perm)) in H.
        apply K in H. now destruct H as [[] | H].
      * apply (Permutation_in _ (Permutation_map fst (Permutation_sym Perm))).
        apply K. now right.
    + intros e He. apply in_map_iff in He. destruct He as ([k t] & <- & Hin).
      apply (Permutation_in _ Perm) in Hin.
      pose proof (tally_of_in k t bd Nbd Hin) as Hget.
      specialize (P k). specialize (A k).
      unfold present_on, absent_on in P, A. rewrite Hget in P, A.
      simpl in *. split; assumption.
    + unfold total_present.
      rewrite (list_sum_perm _ _ (Permutation_map _ Perm)).
      fold (total_present bd). rewrite TP. reflexivity.
    + unfold total_absent.
      rewrite (list_sum_perm _ _ (Permutation_map _ Perm)).
      fold (total_absent bd). rewrite TA. reflexivity.
  - intro V. destruct (group_by_date_total docs [] V) as [bd ->].
    simpl. eexists. reflexivity.
Qed.

(** The handler summarises the documents its query selects. *)
Lemma attendance_summary_selected (employee_id : string)
    (start end_ : option string) (d : Database F) :
  summarises (filter (summary_filter employee_id start end_) (attendance d))
             (attendance_summary employee_id start end_ (Some d)).
Proof.
  unfold attendance_summary. simpl.
  set (docs := filter (summary_filter employee_id start end_) (attendance d)).
  split.
  - intros resp H.
    destruct (group_by_date docs []) as [bd | |] eqn:G; simpl in H;
      try discriminate H.
    injection H as <-. simpl.
    destruct (group_by_date_spec _ _ _ G) as (N & K & P & A & _ & _).
    pose proof (sorted_items_perm bd) as Perm.
    assert (NoDup (keys bd)) as Nbd by (apply N; constructor).
    split; [reflexivity |]. split; [reflexivity |]. split.
    + intro k. rewrite series_dates. split; intro H.
      * apply (Permutation_in _ (Permutation_map fst Perm)) in H.
        apply K in H. now destruct H as [[] | H].
      * apply (Permutation_in _ (Permutation_map fst (Permutation_sym Perm))).
        apply K. now right.
    + intros e He. apply in_map_iff in He. destruct He as ([k t] & <- & Hin).
      apply (Permutation_in _ Perm) in Hin.
      pose proof (tally_of_in k t bd Nbd Hin) as Hget.
      specialize (P k). specialize (A k).
      unfold present_on, absent_on in P, A. rewrite Hget in P, A.
      simpl in *. split; assumption.
  - intro V. destruct (group_by_date_total docs [] V) as [bd ->].
    simpl. eexists. reflexivity.
Qed.

(** C10: the date range of the summary applies only when both bounds are
    given and non-empty.  With a bound missing or empty, the query keeps
    every attendance record of the employee, the summary is that of the
    request without bounds, and it is computed from all of the employee's
    records; with both bounds, it is computed from the employee's records
    whose date lies between them, bounds included. *)
Theorem attendance_summary_range (employee_id : string)
    (start end_ : option string) (db : option (Database F)) :
  (truthy_opt start = false \/ truthy_opt end_ = false ->
   (forall a : Attendance F,
      summary_filter employee_id start end_ a =
      String.eqb (a_employee_id a) employee_id) /\
   attendance_summary employee_id start end_ db =
     attendance_summary employee_id None None db /\
   (forall d : Database F, db = Some d ->
      summarises
        (filter (fun a => String.eqb (a_employee_id a) employee_id)
                (attendance d))
        (attendance_summary employee_id start end_ db))) /\
  (forall s e : string,
     start = Some s -> end_ = Some e -> truthy s = true -> truthy e = true ->
     (forall a : Attendance F,
        summary_filter employee_id start end_ a =
        String.eqb (a_employee_id a) employee_id &&
        (String.leb s (a_date a) && String.leb (a_date a) e)) /\
     (forall d : Database F, db = Some d ->
        summarises
          (filter (fun a => String.eqb (a_employee_id a) employee_id &&
                            (String.leb s (a_date a) &&
                             String.leb (a_date a) e))
                  (attendance d))
          (attendance_summary employee_id start end_ db))).
Proof.
  split.
  - intro H.
    assert (forall a : Attendance F,
              summary_filter employee_id start end_ a =
              String.eqb (a_employee_id a) employee_id) as Hf.
    { intro a. unfold summary_filter.
      destruct start as [s |], end_ as [e |]; simpl in *;
        try apply andb_true_r.
      destruct H as [-> | ->]; simpl;
        rewrite ?andb_false_r; apply andb_true_r. }
    split; [exact Hf |]. split.
    + unfold attendance_summary. destruct db as [d |]; simpl; [| reflexivity].
      assert (filter (summary_filter employee_id start end_) (attendance d) =
              filter (summary_filter employee_id None None) (attendance d))
        as ->; [| reflexivity].
      apply filter_ext. intro a. rewrite Hf.
      unfold summary_filter. now rewrite andb_true_r.
    + intros d ->.
      rewrite <- (filter_ext _ _ Hf (attendance d)).
      apply attendance_summary_selected.
  - intros s e -> -> Ts Te.
    assert (forall a : Attendance F,
              summary_filter employee_id (Some s) (Some e) a =
              String.eqb (a_employee_id a) employee_id &&
              (String.leb s (a_date a) && String.leb (a_date a) e)) as Hf.
    { intro a. unfold summary_filter. now rewrite Ts, Te. }
    split; [exact Hf |].
    intros d ->.
    rewrite <- (filter_ext _ _ Hf (attendance d)).
    apply attendance_summary_selected.
Qed.

End Facts.

(** * Further properties of the handlers *)

Section MoreFacts.

Context {F : Type} {FO : PyFloat F} {RX : Regex}.

(** ** Without a database *)

(** X1: with no database configured, every handler that reads a collection
    answers 500 before it looks at its input, be it a malformed identifier
    or an invalid search pattern. *)
Theorem store_not_configured (cfg : Config F) (q : option string)
    (eid : string) (now : Z) (payload : AttendanceMarkIn F)
    (new_id : ObjectId) (today : string) (date_str start end_ : option string) :
  list_employees q (None : option (Database F)) =
    HTTPException 500 "Database not configured" /\
  remove_employee eid now (None : option (Database F)) =
    HTTPException 500 "Database not configured" /\
  mark_attendance cfg payload new_id now today None =
    HTTPException 500 "Database not configured" /\
  attendance_daily date_str today (None : option (Database F)) =
    HTTPException 500 "Database not configured" /\
  attendance_summary eid start end_ (None : option (Database F)) =
    HTTPException 500 "Database not configured".
Proof. repeat split. Qed.

(** ** Removing an employee *)

(** X2: on a configured database, remove-employee answers 400 exactly when
    the identifier is malformed, 404 exactly when it is well formed and no
    employee document carries it, and "ok" otherwise. *)
Theorem remove_employee_outcome (eid : string) (now : Z) (d : Database F) :
  (remove_employee eid now (Some d) = HTTPException 400 "Invalid employee id"
   <-> ObjectId_of_str eid = None) /\
  (remove_employee eid now (Some d) = HTTPException 404 "Employee not found"
   <-> exists oid, ObjectId_of_str eid = Some oid /\
                   forall e, In e (employee d) -> e__id e <> oid) /\
  ((exists db', remove_employee eid now (Some d) = Ok ("ok", db'))
   <-> exists oid e, ObjectId_of_str eid = Some oid /\
                     In e (employee d) /\ e__id e = oid).
Proof.
  destruct (ObjectId_of_str eid) as [oid |] eqn:Hoid.
  - destruct (find (by_id oid) (employee d)) as [e |] eqn:Hfind.
    + apply find_some in Hfind. destruct Hfind as [Hin Hid].
      apply by_id_true in Hid.
      destruct (remove_employee_found eid now d oid e Hoid Hin Hid)
        as (l1 & x & l2 & _ & _ & _ & Hrem).
      rewrite Hrem. split; [| split].
      * split; discriminate.
      * split; [discriminate |].
        intros (oid' & E & Hnone). injection E as <-.
        now destruct (Hnone e Hin).
      * split; [| intros _; eexists; reflexivity].
        intros _. exists oid, e. now repeat split.
    + assert (forall e, In e (employee d) -> e__id e <> oid) as Hnone.
      { intros e He. apply by_id_false. exact (find_none _ _ Hfind e He). }
      rewrite (remove_employee_missing eid now d oid Hoid Hnone).
      split; [| split].
      * split; discriminate.
      * split; [| reflexivity]. intros _. now exists oid.
      * split; [intros [db' E]; discriminate E |].
        intros (oid' & e & E & Hin & Hid). injection E as <-.
        now destruct (Hnone e Hin).
  - assert (remove_employee eid now (Some d) =
            HTTPException 400 "Invalid employee id") as ->.
    { unfold remove_employee. simpl. now rewrite Hoid. }
    split; [| split].
    + split; reflexivity.
    + split; [discriminate | intros (oid & E & _); discriminate E].
    + split; [intros [db' E]; discriminate E |].
      intros (oid & e & E & _); discriminate E.
Qed.

Lemma insert_desc_head {A : Type} (key : A -> Z) (d : A) (l : list A) :
  Forall (fun y => (key y <= key d)%Z) l -> insert_desc key d l = d :: l.
Proof.
  destruct l as [| x l]; simpl; intro H; [reflexivity |].
  inversion H as [| ? ? Hx _]; subst.
  apply Z.leb_le in Hx. now rewrite Hx.
Qed.

Lemma filter_insert_desc {A : Type} (key : A -> Z) (p : A -> bool) (d : A)
    (l : list A) :
  StronglySorted (fun a b => (key b <= key a)%Z) l ->
  filter p (insert_desc key d l) =
  if p d then insert_desc key d (filter p l) else filter p l.
Proof.
  induction l as [| x l IH]; intro S.
  - simpl. now destruct (p d).
  - inversion S as [| ? ? Sl Fx]; subst. simpl.
    destruct (key x <=? key d)%Z eqn:E.
    + simpl. destruct (p d); [| reflexivity].
      symmetry. apply insert_desc_head.
      apply Z.leb_le in E.
      destruct (p x).
      * constructor; [assumption |].
        apply Forall_forall. intros y Hy. apply filter_In in Hy.
        assert (key y <= key x)%Z
          by exact (proj1 (Forall_forall _ _) Fx y (proj1 Hy)).
        lia.
      * apply Forall_forall. intros y Hy. apply filter_In in Hy.
        assert (key y <= key x)%Z
          by exact (proj1 (Forall_forall _ _) Fx y (proj1 Hy)).
        lia.
    + simpl. rewrite (IH Sl).
      destruct (p x), (p d); simpl; try reflexivity.
      now rewrite E.
Qed.

(** Selecting documents commutes with the descending sort. *)
Lemma filter_sort_desc {A : Type} (key : A -> Z) (p : A -> bool) (l : list A) :
  filter p (sort_desc key l) = sort_desc key (filter p l).
Proof.
  induction l as [| d l IH]; simpl.
  - reflexivity.
  - rewrite filter_insert_desc by apply sort_desc_sorted.
    rewrite IH. now destruct (p d).
Qed.

Lemma filter_map_comm {A B : Type} (f : A -> B) (p : B -> bool) (l : list A) :
  filter p (map f l) = map f (filter (fun x => p (f x)) l).
Proof.
  induction l as [| x l IH]; simpl; [reflexivity |].
  rewrite IH. now destruct (p (f x)).
Qed.

Lemma filter_all {A : Type} (p : A -> bool) (l : list A) :
  (forall x, In x l -> p x = true) -> filter p l = l.
Proof.
  induction l as [| x l IH]; simpl; intro H; [reflexivity |].
  rewrite (H x (or_introl eq_refl)), IH; [reflexivity |].
  intros y Hy. apply H. now right.
Qed.

Lemma filter_filter {A : Type} (p q : A -> bool) (l : list A) :
  filter p (filter q l) = filter (fun x => q x && p x) l.
Proof.
  induction l as [| x l IH]; simpl; [reflexivity |].
  destruct (q x); simpl; [| exact IH].
  destruct (p x); now rewrite IH.
Qed.

(** X3: with unique identifiers, a successful removal takes exactly the
    removed employee out of every listing and leaves the rest of each
    listing, and the attendance collection, as they were. *)
Theorem remove_employee_listing (eid : string) (now : Z) (d : Database F)
    (db' : option (Database F)) (oid : ObjectId) :
  unique_ids (Some d) ->
  ObjectId_of_str eid = Some oid ->
  remove_employee eid now (Some d) = Ok ("ok", db') ->
  (exists d', db' = Some d' /\ attendance d' = attendance d) /\
  forall q : option string,
    list_employees q db' =
    match list_employees q (Some d) with
    | Ok res =>
        Ok (filter (fun o => negb (String.eqb (eo_id o) (str oid))) res)
    | HTTPException c m => HTTPException c m
    | Uncaught e => Uncaught e
    end.
Proof.
  intros U Hoid H.
  destruct (remove_employee_inv eid now _ db' "ok" H)
    as (d0 & oid' & l1 & x & l2 & Hd & Hoid' & Hcoll & Hx & Hl1 & _ & ->).
  injection Hd as <-. rewrite Hoid in Hoid'. injection Hoid' as <-.
  split; [eexists; split; reflexivity |].
  intro q. unfold list_employees. simpl.
  destruct (employee_filter q) as [fq | c m | e] eqn:Efq; simpl;
    try reflexivity.
  f_equal.
  rewrite filter_map_comm, filter_sort_desc. f_equal. f_equal.
  unfold unique_ids in U. simpl in U. rewrite Hcoll in *.
  rewrite map_app in U. simpl in U.
  assert (forall y, In y l2 -> e__id y <> oid) as Hl2.
  { intros y Hy E. apply NoDup_remove_2 in U. apply U.
    apply in_or_app. right. rewrite Hx, <- E. now apply in_map. }
  assert (forall l, (forall y, In y l -> e__id y <> oid) ->
            filter (fun e => negb (String.eqb (str (e__id e)) (str oid)))
                   (filter fq l) = filter fq l) as Hkeep.
  { intros l Hl. apply filter_all. intros y Hy. apply filter_In in Hy.
    apply negb_true_iff. apply (by_id_false oid y). now apply Hl. }
  rewrite !filter_app. simpl.
  assert (fq (deactivate now x) = false) as ->.
  { destruct (fq (deactivate now x)) eqn:E; [| reflexivity].
    now apply (employee_filter_active q fq _ Efq) in E. }
  rewrite (Hkeep l1 Hl1).
  destruct (fq x); simpl.
  - assert (String.eqb (str (e__id x)) (str oid) = true) as ->.
    { apply (by_id_true oid x). exact Hx. }
    simpl. now rewrite (Hkeep l2 Hl2).
  - now rewrite (Hkeep l2 Hl2).
Qed.

(** ** Registering, then listing and marking *)

Lemma In_sort_desc {A : Type} (key : A -> Z) (x : A) (l : list A) :
  In x l -> In x (sort_desc key l).
Proof.
  apply Permutation_in. apply Permutation_sym. apply sort_desc_perm.
Qed.

(** X4: on a configured database, registering an employee succeeds and
    echoes the payload with the generated identifier and the active flag;
    it leaves the attendance collection and the employees on file as they
    are; the next listing shows the new employee; and the returned
    identifier, once the store's identifier reads back from its text, is
    accepted by mark-attendance: a request carrying it without a position,
    or with the office unset, is answered with a record. *)
Theorem create_employee_visible (payload : EmployeeIn) (new_id : ObjectId)
    (now : Z) (d : Database F) :
  let out := {| eo_id := str new_id; eo_name := name payload;
                eo_email := email payload; eo_role := role payload;
                eo_phone := phone payload; eo_is_active := true |} in
  exists d' : Database F,
    create_employee payload new_id now (Some d) = Ok (out, Some d') /\
    attendance d' = attendance d /\
    (forall e, In e (employee d) -> In e (employee d')) /\
    (exists res, list_employees None (Some d') = Ok res /\ In out res) /\
    (ObjectId_of_str (str new_id) = Some new_id ->
     forall (cfg : Config F) (p : AttendanceMarkIn F) (i : ObjectId) (n : Z)
            (t : string),
       employee_id p = str new_id ->
       lat p = None \/ lng p = None \/
       (feq (OFFICE_LAT cfg) (of_int 0) = true /\
        feq (OFFICE_LNG cfg) (of_int 0) = true) ->
       exists o db'',
         mark_attendance cfg p i n t (Some d') = Ok (o, db'') /\
         ao_employee_id o = str new_id /\ ao_status o = "absent").
Proof.
  intro out. eexists.
  split; [reflexivity |]. split; [reflexivity |].
  set (e := {| e__id := new_id; e_name := name payload;
               e_email := email payload; e_role := role payload;
               e_phone := phone payload; e_is_active := true;
               e_created_at := now; e_updated_at := None |}).
  split; [| split].
  - intros e' He'. simpl. apply in_or_app. now left.
  - unfold list_employees. simpl. eexists. split; [reflexivity |].
    change out with (employee_out e). apply in_map.
    apply In_sort_desc. apply filter_In. split; [| reflexivity].
    apply in_or_app. right. now left.
  - intros Hcanon cfg p i n t Hp Hoff.
    destruct (mark_attendance_total cfg p i n t
                {| employee := employee d ++ [e]; attendance := attendance d |}
                new_id e) as (o & db'' & H & Hs & _).
    + now rewrite Hp.
    + simpl. apply in_or_app. right. now left.
    + reflexivity.
    + reflexivity.
    + exact Hoff.
    + exists o, db''. split; [exact H |]. split; [| exact Hs].
      destruct (mark_attendance_ok _ _ _ _ _ _ _ _ H) as (_ & _ & -> & _).
      simpl. exact Hp.
Qed.

(** ** Marking, then the roster and the summary *)

Lemma mark_attendance_inv (cfg : Config F) (payload : AttendanceMarkIn F)
    (new_id : ObjectId) (now : Z) (today : string) (db : option (Database F))
    (out : AttendanceOut F) (db' : option (Database F)) :
  mark_attendance cfg payload new_id now today db = Ok (out, db') ->
  exists d oid e,
    db = Some d /\ ObjectId_of_str (employee_id payload) = Some oid /\
    In e (employee d) /\ e__id e = oid /\ e_is_active e = true.
Proof.
  unfold mark_attendance.
  destruct db as [d |]; simpl; [| discriminate].
  destruct (ObjectId_of_str (employee_id payload)) as [oid |]; simpl;
    [| discriminate].
  destruct (find_one _ (employee d)) as [e |] eqn:E; [| discriminate].
  intros _. apply find_some in E. destruct E as [Hin Hb].
  apply andb_true_iff in Hb. destruct Hb as [Hid Hact].
  apply by_id_true in Hid.
  exists d, oid, e. now repeat split.
Qed.

Lemma ObjectId_of_str_truthy (s : string) (oid : ObjectId) :
  ObjectId_of_str s = Some oid -> truthy s = true.
Proof. destruct s; [discriminate | reflexivity]. Qed.

Lemma point_lookup_on_file (emp_coll : list Employee) (s : string)
    (oid : ObjectId) (e : Employee) :
  ObjectId_of_str s = Some oid -> In e emp_coll -> e__id e = oid ->
  exists e', point_lookup emp_coll s = Some e' /\ e__id e' = oid.
Proof.
  intros Hs Hin Hid. unfold point_lookup, find_one. rewrite Hs.
  destruct (find (by_id oid) emp_coll) as [e' |] eqn:E.
  - exists e'. split; [reflexivity |].
    apply find_some in E. now apply by_id_true.
  - exfalso. apply (proj1 (by_id_false oid e) (find_none _ _ E e Hin)).
    exact Hid.
Qed.

Lemma lookup_employee_point (emp_coll : list Employee) (a : Attendance F)
    (oid : ObjectId) :
  ObjectId_of_str (a_employee_id a) = Some oid ->
  lookup_employee emp_coll a =
    Ok (point_lookup emp_coll (a_employee_id a)).
Proof.
  intro H. unfold lookup_employee, point_lookup.
  now rewrite (ObjectId_of_str_truthy _ _ H), H.
Qed.

Lemma daily_records_app (emp_coll : list Employee)
    (l1 l2 : list (Attendance F)) :
  daily_records emp_coll (l1 ++ l2) =
  (r1 <- daily_records emp_coll l1 ;;
   r2 <- daily_records emp_coll l2 ;;
   Ok (r1 ++ r2)).
Proof.
  induction l1 as [| a l1 IH]; simpl.
  - now destruct (daily_records emp_coll l2).
  - destruct (lookup_employee emp_coll a); simpl; try reflexivity.
    rewrite IH.
    destruct (daily_records emp_coll l1); simpl; try reflexivity.
    now destruct (daily_records emp_coll l2).
Qed.

(** X5: a successful mark-attendance appends exactly one record to the
    roster of its day, carrying the marked employee's name, and leaves the
    roster of every other day unchanged; nothing is deduplicated. *)
Theorem mark_attendance_roster (cfg : Config F) (payload : AttendanceMarkIn F)
    (new_id : ObjectId) (now : Z) (today : string) (d : Database F)
    (out : AttendanceOut F) (db' : option (Database F))
    (date_str : option string) (today' : string) (resp : DailyOut F) :
  mark_attendance cfg payload new_id now today (Some d) = Ok (out, db') ->
  attendance_daily date_str today' (Some d) = Ok resp ->
  exists e : Employee,
    point_lookup (employee d) (employee_id payload) = Some e /\
    attendance_daily date_str today' db' =
      Ok {| d_date := d_date resp;
            d_records :=
              d_records resp ++
              if String.eqb today (d_date resp)
              then [ {| dr_id := ao_id out;
                        dr_employee_id := employee_id payload;
                        dr_employee_name := Some (e_name e);
                        dr_status := ao_status out;
                        dr_date := today;
                        dr_distance_m := ao_distance_m out |} ]
              else [] |}.
Proof.
  intros Hmark Hdaily.
  destruct (mark_attendance_inv _ _ _ _ _ _ _ _ Hmark)
    as (d0 & oid & e0 & Hd & Hoid & Hin & Hid & _).
  injection Hd as <-.
  destruct (mark_attendance_ok _ _ _ _ _ _ _ _ Hmark) as (d0 & Hd & -> & ->).
  injection Hd as <-.
  destruct (point_lookup_on_file _ _ _ _ Hoid Hin Hid) as (e & He & _).
  exists e. split; [exact He |].
  unfold attendance_daily in *. simpl in *.
  set (day := match date_str with
              | Some s => if truthy s then s else today'
              | None => today'
              end) in *.
  rewrite filter_app, daily_records_app.
  destruct (daily_records (employee d) _) as [recs | |]; simpl in *;
    try discriminate Hdaily.
  injection Hdaily as <-. simpl.
  destruct (String.eqb today day); simpl.
  - rewrite (lookup_employee_point _ _ oid) by exact Hoid. simpl.
    rewrite He. reflexivity.
  - now rewrite app_nil_r.
Qed.

Lemma evaluate_status (cfg : Config F) (la lo : option F) :
  snd (evaluate cfg la lo) = "present" \/ snd (evaluate cfg la lo) = "absent".
Proof.
  unfold evaluate, classify.
  destruct la, lo; simpl; auto.
  destruct (negb _ || negb _); simpl; auto.
  destruct (fle _ _); auto.
Qed.

Lemma group_by_date_app (l1 l2 : list (Attendance F))
    (by_date : list (string * DayTally)) :
  group_by_date (l1 ++ l2) by_date =
  (bd <- group_by_date l1 by_date ;; group_by_date l2 bd).
Proof.
  revert by_date. induction l1 as [| a l1 IH]; intro by_date; simpl.
  - reflexivity.
  - destruct (tally_doc a by_date); [apply IH | reflexivity].
Qed.

Lemma count_status_app (s : string) (l1 l2 : list (Attendance F)) :
  count_status s (l1 ++ l2) = (count_status s l1 + count_status s l2)%nat.
Proof. unfold count_status. now rewrite filter_app, length_app. Qed.

(** X6: the summary is keyed by the text of the identifier.  A successful
    mark-attendance leaves the summary of every other identifier text
    unchanged, and adds exactly one to the present or to the absent total of
    its own unbounded summary, according to the status it returned. *)
Theorem mark_attendance_summary (cfg : Config F) (payload : AttendanceMarkIn F)
    (new_id : ObjectId) (now : Z) (today : string) (d : Database F)
    (out : AttendanceOut F) (db' : option (Database F)) :
  mark_attendance cfg payload new_id now today (Some d) = Ok (out, db') ->
  (forall (eid : string) (start end_ : option string),
     eid <> employee_id payload ->
     attendance_summary eid start end_ db' =
     attendance_summary eid start end_ (Some d)) /\
  (forall resp : SummaryOut,
     attendance_summary (employee_id payload) None None (Some d) = Ok resp ->
     exists resp' : SummaryOut,
       attendance_summary (employee_id payload) None None db' = Ok resp' /\
       so_present resp' =
         (so_present resp +
          if String.eqb (ao_status out) "present" then 1 else 0)%nat /\
       so_absent resp' =
         (so_absent resp +
          if String.eqb (ao_status out) "absent" then 1 else 0)%nat /\
       (so_present resp' + so_absent resp' =
        so_present resp + so_absent resp + 1)%nat).
Proof.
  intro Hmark.
  destruct (mark_attendance_ok _ _ _ _ _ _ _ _ Hmark) as (d0 & Hd & -> & ->).
  injection Hd as <-. clear Hmark.
  set (st := snd (evaluate cfg (lat payload) (lng payload))).
  set (doc := {| a__id := new_id; a_employee_id := employee_id payload;
                 a_status := st; a_date := today;
                 a_lat := lat payload; a_lng := lng payload;
                 a_distance_m := fst (evaluate cfg (lat payload) (lng payload));
                 a_created_at := now |}).
  split.
  - intros eid start end_ Hne.
    assert (filter (summary_filter eid start end_) (attendance d ++ [doc]) =
            filter (summary_filter eid start end_) (attendance d)) as Hf.
    { rewrite filter_app. simpl.
      assert (summary_filter eid start end_ doc = false) as ->.
      { unfold summary_filter. simpl.
        assert (String.eqb (employee_id payload) eid = false) as ->
          by (apply String.eqb_neq; congruence).
        reflexivity. }
      apply app_nil_r. }
    unfold attendance_summary. simpl. now rewrite Hf.
  - intros resp H.
    set (docs := filter (summary_filter (employee_id payload) None None)
                        (attendance d)) in *.
    assert (filter (summary_filter (employee_id payload) None None)
                   (attendance d ++ [doc]) = docs ++ [doc]) as Hf.
    { rewrite filter_app. simpl.
      assert (summary_filter (employee_id payload) None None doc = true) as ->.
      { unfold summary_filter. simpl. now rewrite String.eqb_refl. }
      reflexivity. }
    unfold attendance_summary in *. simpl in *. fold docs in H.
    rewrite Hf, group_by_date_app.
    destruct (group_by_date docs []) as [bd | |]; simpl in *;
      try discriminate H.
    injection H as <-. simpl.
    destruct (incr_at_total today st
                (setdefault today {| present := 0; absent := 0 |} bd))
      as [bd' E].
    + apply evaluate_status.
    + apply setdefault_keys. now left.
    + unfold tally_doc. simpl. rewrite E. simpl.
      eexists. split; [reflexivity |]. simpl.
      rewrite !count_status_app.
      assert (forall s, count_status s [doc] =
                        if String.eqb st s then 1%nat else 0%nat) as Hc.
      { intro s0. unfold count_status. simpl. now destruct (String.eqb st s0). }
      rewrite !Hc.
      destruct (evaluate_status cfg (lat payload) (lng payload)) as [P | A].
      * fold st in P. rewrite P. simpl. repeat split; lia.
      * fold st in A. rewrite A. simpl. repeat split; lia.
Qed.

(** ** Edges of the roster and of the summary *)

(** X7: an absent or empty [date_str] asks for today's roster, and the
    roster of a day without records is the empty list, not an error,
    whatever the records of other days look like. *)
Theorem attendance_daily_empty (today : string) (db : option (Database F)) :
  attendance_daily None today db = attendance_daily (Some today) today db /\
  attendance_daily (Some "") today db =
    attendance_daily (Some today) today db /\
  (forall (day : string) (d : Database F),
     truthy day = true -> db = Some d ->
     (forall a, In a (attendance d) -> a_date a <> day) ->
     attendance_daily (Some day) today db =
       Ok {| d_date := day; d_records := [] |}).
Proof.
  split; [| split].
  - unfold attendance_daily. now destruct (truthy today).
  - unfold attendance_daily. simpl. now destruct (truthy today).
  - intros day d T -> Hnone. unfold attendance_daily. simpl. rewrite T.
    assert (filter (fun a : Attendance F => String.eqb (a_date a) day)
                   (attendance d) = []) as ->; [| reflexivity].
    induction (attendance d) as [| a l IH]; simpl; [reflexivity |].
    assert (String.eqb (a_date a) day = false) as ->.
    { apply String.eqb_neq. apply Hnone. now left. }
    apply IH. intros b Hb. apply Hnone. now right.
Qed.

Lemma lookup_employee_outcome (emp_coll : list Employee) (a : Attendance F) :
  (exists emp, lookup_employee emp_coll a = Ok emp) \/
  lookup_employee emp_coll a = Uncaught "InvalidId".
Proof.
  unfold lookup_employee.
  destruct (truthy (a_employee_id a)); [| left; eexists; reflexivity].
  destruct (ObjectId_of_str (a_employee_id a));
    [left; eexists; reflexivity | now right].
Qed.

Lemma daily_records_outcome (emp_coll : list Employee)
    (docs : list (Attendance F)) :
  (exists recs, daily_records emp_coll docs = Ok recs) \/
  daily_records emp_coll docs = Uncaught "InvalidId".
Proof.
  induction docs as [| a docs IH]; simpl.
  - left. eexists. reflexivity.
  - destruct (lookup_employee_outcome emp_coll a) as [[emp ->] | ->]; simpl;
      [| now right].
    destruct IH as [[recs ->] | ->]; simpl;
      [left; eexists; reflexivity | now right].
Qed.

Lemma daily_records_fail (emp_coll : list Employee)
    (docs : list (Attendance F)) (a : Attendance F) :
  In a docs -> truthy (a_employee_id a) = true ->
  ObjectId_of_str (a_employee_id a) = None ->
  daily_records emp_coll docs = Uncaught "InvalidId".
Proof.
  intros Hin T N.
  induction docs as [| b docs IH]; [destruct Hin |]. simpl.
  destruct Hin as [-> | Hin].
  - unfold lookup_employee. now rewrite T, N.
  - rewrite (IH Hin).
    destruct (lookup_employee_outcome emp_coll b) as [[emp ->] | ->];
      reflexivity.
Qed.

(** X8: one attendance document of the requested day whose employee
    identifier is non-empty and malformed makes the whole roster of that day
    fail with the uncaught [InvalidId] of the identifier constructor. *)
Theorem attendance_daily_malformed (day today : string) (d : Database F)
    (a : Attendance F) :
  truthy day = true ->
  In a (attendance d) -> a_date a = day ->
  truthy (a_employee_id a) = true ->
  ObjectId_of_str (a_employee_id a) = None ->
  attendance_daily (Some day) today (Some d) = Uncaught "InvalidId".
Proof.
  intros T Hin Hday Ta N. unfold attendance_daily. simpl. rewrite T.
  rewrite (daily_records_fail (employee d) _ a); [reflexivity | | exact Ta | exact N].
  apply filter_In. split; [exact Hin |]. now apply String.eqb_eq.
Qed.

Lemma string_ltb_not_leb (a b : string) :
  String.ltb a b = true -> String.leb b a = false.
Proof.
  unfold String.ltb, String.leb. rewrite (String.compare_antisym b a).
  now destruct (String.compare a b).
Qed.

Lemma summary_of_nothing (employee_id : string) (start end_ : option string)
    (d : Database F) :
  (forall a, In a (attendance d) ->
             summary_filter employee_id start end_ a = false) ->
  attendance_summary employee_id start end_ (Some d) =
    Ok {| so_present := 0; so_absent := 0; so_series := [] |}.
Proof.
  intro H. unfold attendance_summary. simpl.
  assert (filter (summary_filter employee_id start end_) (attendance d) = [])
    as ->; [| reflexivity].
  induction (attendance d) as [| a l IH]; simpl; [reflexivity |].
  rewrite (H a (or_introl eq_refl)). apply IH.
  intros b Hb. apply H. now right.
Qed.

(** X9: the summary neither validates the identifier nor looks the employee
    up: for an identifier text that no attendance record carries, well
    formed or not, and for a range whose end precedes its start, it answers
    zero totals and an empty series. *)
Theorem attendance_summary_nothing (employee_id : string)
    (start end_ : option string) (d : Database F) :
  ((forall a, In a (attendance d) -> a_employee_id a <> employee_id) ->
   attendance_summary employee_id start end_ (Some d) =
     Ok {| so_present := 0; so_absent := 0; so_series := [] |}) /\
  (forall s e : string,
     start = Some s -> end_ = Some e ->
     truthy s = true -> truthy e = true -> String.ltb e s = true ->
     attendance_summary employee_id start end_ (Some d) =
       Ok {| so_present := 0; so_absent := 0; so_series := [] |}).
Proof.
  split.
  - intro H. apply summary_of_nothing. intros a Ha.
    unfold summary_filter.
    assert (String.eqb (a_employee_id a) employee_id = false) as ->
      by (apply String.eqb_neq; now apply H).
    reflexivity.
  - intros s e -> -> Ts Te Hlt. apply summary_of_nothing. intros a _.
    unfold summary_filter. rewrite Ts, Te. simpl.
    destruct (String.leb s (a_date a)) eqn:E1;
      [| now rewrite andb_false_r].
    destruct (String.leb (a_date a) e) eqn:E2;
      [| now rewrite andb_false_r].
    pose proof (string_leb_trans _ _ _ E1 E2) as E.
    now rewrite (string_ltb_not_leb _ _ Hlt) in E.
Qed.

(** ** What the requests maintain *)

Lemma later_invariant (cfg : Config F) (P : option (Database F) -> Prop) :
  (forall c db, admissible c db -> P db -> P (run cfg c db)) ->
  forall db db', later cfg db db' -> P db -> P db'.
Proof.
  intros Step db db' L. induction L as [db | db c db' Adm _ IH]; intro H.
  - exact H.
  - apply IH. now apply Step.
Qed.

Lemma on_file_more (d d' : Database F) (a : Attendance F) :
  (forall e, In e (employee d) ->
             exists e', In e' (employee d') /\ e__id e' = e__id e) ->
  on_file d a -> on_file d' a.
Proof.
  intros M (oid & e & Hs & Hin & Hid).
  destruct (M e Hin) as (e' & Hin' & Hid').
  exists oid, e'. repeat split; [exact Hs | exact Hin' | congruence].
Qed.

Lemma run_consistent (cfg : Config F) (c : call F) (db : option (Database F)) :
  admissible c db -> consistent db -> consistent (run cfg c db).
Proof.
  intros Adm C.
  destruct c as [p i n | q | eid n | p i n t | ds t | eid st en]; simpl;
    try assumption.
  - destruct db as [d |]; [| destruct C]. simpl.
    destruct C as [U Hatt]. split.
    + exact (run_unique_ids cfg (CreateEmployee p i n) (Some d) Adm U).
    + intros a Ha. destruct (Hatt a Ha) as [Hs Hf]. split; [exact Hs |].
      apply on_file_more with (d := d); [| exact Hf].
      intros e He. exists e. split; [| reflexivity].
      simpl. apply in_or_app. now left.
  - destruct (remove_employee eid n db) as [[r db1] | |] eqn:H; simpl;
      try assumption.
    pose proof (run_unique_ids cfg (RemoveEmployee eid n) db Adm) as U'.
    simpl in U'. rewrite H in U'. simpl in U'.
    destruct (remove_employee_inv eid n db db1 r H)
      as (d & oid' & l1 & x & l2 & -> & _ & Hcoll & _ & _ & _ & ->).
    destruct C as [U Hatt]. split; [exact (U' U) |].
    intros a Ha. destruct (Hatt a Ha) as [Hs Hf]. split; [exact Hs |].
    apply on_file_more with (d := d); [| exact Hf].
    intros e He. simpl. rewrite Hcoll in He.
    apply in_app_or in He. destruct He as [He | [<- | He]].
    * exists e. split; [apply in_or_app; now left | reflexivity].
    * exists (deactivate n x). split; [| reflexivity].
      apply in_or_app. right. now left.
    * exists e. split; [apply in_or_app; right; now right | reflexivity].
  - destruct (mark_attendance cfg p i n t db) as [[out db1] | |] eqn:H; simpl;
      try assumption.
    destruct (mark_attendance_inv _ _ _ _ _ _ _ _ H)
      as (d & oid & e & -> & Hoid & Hin & Hid & _).
    destruct (mark_attendance_ok _ _ _ _ _ _ _ _ H) as (d0 & Hd & _ & ->).
    injection Hd as <-.
    destruct C as [U Hatt]. split; [exact U |].
    intros a Ha. simpl in Ha. apply in_app_or in Ha.
    destruct Ha as [Ha | [<- | []]].
    + destruct (Hatt a Ha) as [Hs Hf]. split; [exact Hs |].
      destruct Hf as (oid' & e' & Hs' & Hin' & Hid').
      exists oid', e'. now repeat split.
    + split; [apply evaluate_status |].
      exists oid, e. now repeat split.
Qed.

Lemma empty_consistent : consistent (empty_database (F := F)).
Proof. simpl. split; [constructor | intros a []]. Qed.

(** X10: every database that the requests produce from a fresh store has
    unique employee identifiers, attendance statuses that are "present" or
    "absent" as the schema demands, and attendance records whose employee
    identifier is well formed and names an employee document on file. *)
Theorem reachable_consistent (cfg : Config F) (db : option (Database F)) :
  reachable cfg db -> consistent db.
Proof.
  intro R.
  apply (later_invariant cfg consistent) with (db := empty_database).
  - exact (run_consistent cfg).
  - exact R.
  - exact empty_consistent.
Qed.

(** X11: on every such database the daily roster answers, for any day, and
    every record of it carries an employee name: a reference never dangles,
    since employees are never taken off the store. *)
Theorem reachable_roster (cfg : Config F) (db : option (Database F))
    (date_str : option string) (today : string) :
  reachable cfg db ->
  exists resp : DailyOut F,
    attendance_daily date_str today db = Ok resp /\
    forall r, In r (d_records resp) -> dr_employee_name r <> None.
Proof.
  intro R.
  pose proof (later_invariant cfg consistent (run_consistent cfg) _ _ R
                empty_consistent) as C.
  destruct db as [d |]; [| destruct C]. destruct C as [_ Hatt].
  unfold attendance_daily. simpl.
  set (day := match date_str with
              | Some s => if truthy s then s else today
              | None => today
              end).
  set (docs := filter (fun a => String.eqb (a_date a) day) (attendance d)).
  destruct (daily_records_total (employee d) docs) as [recs E].
  - intros a Ha _. unfold docs in Ha. apply filter_In in Ha.
    destruct (Hatt a (proj1 Ha)) as [_ (oid & e & Hs & _)]. congruence.
  - rewrite E. simpl. eexists. split; [reflexivity |]. simpl.
    rewrite (daily_records_ok _ _ _ E).
    intros r Hr. apply in_map_iff in Hr. destruct Hr as (a & <- & Ha).
    unfold docs in Ha. apply filter_In in Ha.
    destruct (Hatt a (proj1 Ha)) as [_ (oid & e & Hs & Hin & Hid)].
    destruct (point_lookup_on_file _ _ _ _ Hs Hin Hid) as (e' & -> & _).
    simpl. discriminate.
Qed.

(** X12: on every such database the per-employee summary answers, for any
    identifier and bounds: the tally never meets a status it has no counter
    for. *)
Theorem reachable_summary (cfg : Config F) (db : option (Database F))
    (employee_id : string) (start end_ : option string) :
  reachable cfg db ->
  exists resp : SummaryOut,
    attendance_summary employee_id start end_ db = Ok resp.
Proof.
  intro R.
  pose proof (later_invariant cfg consistent (run_consistent cfg) _ _ R
                empty_consistent) as C.
  destruct db as [d |]; [| destruct C]. destruct C as [_ Hatt].
  unfold attendance_summary. simpl.
  destruct (group_by_date_total
              (filter (summary_filter employee_id start end_) (attendance d))
              []) as [bd ->].
  - intros a Ha. apply filter_In in Ha. exact (proj1 (Hatt a (proj1 Ha))).
  - simpl. eexists. reflexivity.
Qed.

(** ** Counting and searching *)

Lemma tally_doc_status (a : Attendance F)
    (by_date by_date' : list (string * DayTally)) :
  tally_doc a by_date = Some by_date' ->
  a_status a = "present" \/ a_status a = "absent".
Proof.
  unfold tally_doc. intro H.
  destruct (incr_at_spec _ _ _ _ H) as (_ & t & t' & _ & Hi & _).
  destruct (incr_cases _ _ _ Hi) as [[E _] | [E _]]; auto.
Qed.

Lemma group_by_date_statuses (docs : list (Attendance F))
    (by_date by_date' : list (string * DayTally)) :
  group_by_date docs by_date = Ok by_date' ->
  forall a, In a docs -> a_status a = "present" \/ a_status a = "absent".
Proof.
  revert by_date. induction docs as [| b docs IH]; simpl; intros by_date H a Ha.
  - destruct Ha.
  - destruct (tally_doc b by_date) as [bd1 |] eqn:T; [| discriminate H].
    destruct Ha as [<- | Ha].
    + exact (tally_doc_status _ _ _ T).
    + exact (IH _ H a Ha).
Qed.

Lemma count_status_all (docs : list (Attendance F)) :
  (forall a, In a docs -> a_status a = "present" \/ a_status a = "absent") ->
  (count_status "present" docs + count_status "absent" docs =
   List.length docs)%nat.
Proof.
  induction docs as [| a docs IH]; intro V; [reflexivity |].
  rewrite !count_status_cons. simpl List.length.
  specialize (IH (fun b Hb => V b (or_intror Hb))).
  destruct (V a (or_introl eq_refl)) as [-> | ->]; simpl; lia.
Qed.

(** X17: whenever the summary answers, its present and absent totals add up
    to the number of attendance records the query matched: no record is
    left out or counted twice. *)
Theorem attendance_summary_counts_all (employee_id : string)
    (start end_ : option string) (d : Database F) (resp : SummaryOut) :
  attendance_summary employee_id start end_ (Some d) = Ok resp ->
  (so_present resp + so_absent resp =
   List.length (filter (summary_filter employee_id start end_)
                       (attendance d)))%nat.
Proof.
  unfold attendance_summary. simpl.
  set (docs := filter (summary_filter employee_id start end_) (attendance d)).
  destruct (group_by_date docs []) as [bd | |] eqn:G; simpl; try discriminate.
  intro H. injection H as <-. simpl.
  apply count_status_all. exact (group_by_date_statuses _ _ _ G).
Qed.

(** X18: searching only narrows the full listing and keeps its order: for a
    term the store accepts as a pattern, the listing is the unfiltered
    listing reduced to the entries whose name or e-mail address matches. *)
Theorem list_employees_narrows (q : string) (m : string -> bool)
    (d : Database F) :
  truthy q = true -> regex_i q = Some m ->
  exists everybody : list EmployeeOut,
    list_employees None (Some d) = Ok everybody /\
    list_employees (Some q) (Some d) =
      Ok (filter (fun o => m (eo_name o) || m (eo_email o)) everybody).
Proof.
  intros T E. unfold list_employees, employee_filter. simpl.
  rewrite T, E. simpl.
  eexists. split; [reflexivity |]. f_equal.
  rewrite filter_map_comm, filter_sort_desc, filter_filter.
  reflexivity.
Qed.

(** ** What no request does *)

Lemma later_preorder (cfg : Config F)
    (P : option (Database F) -> option (Database F) -> Prop) :
  (forall db, P db db) ->
  (forall a b c, P a b -> P b c -> P a c) ->
  (forall c db, admissible c db -> P db (run cfg c db)) ->
  forall db db', later cfg db db' -> P db db'.
Proof.
  intros Refl Trans Step db db' L.
  induction L as [db | db c db' Adm _ IH].
  - apply Refl.
  - apply Trans with (run cfg c db); [now apply Step | exact IH].
Qed.

(** X19: attendance records are append-only: after any sequence of
    requests the attendance collection is the earlier one followed by the
    records marked since; no request alters or removes a record. *)
Theorem attendance_append_only (cfg : Config F)
    (db db' : option (Database F)) :
  later cfg db db' ->
  forall d, db = Some d ->
  exists d' since,
    db' = Some d' /\ attendance d' = attendance d ++ since.
Proof.
  intro L.
  apply (later_preorder cfg
           (fun a b => forall d, a = Some d ->
              exists d' since,
                b = Some d' /\ attendance d' = attendance d ++ since));
    try exact L; clear.
  - intros db d ->. exists d, []. now rewrite app_nil_r.
  - intros a b c Hab Hbc d Ha.
    destruct (Hab d Ha) as (d1 & s1 & Hb & E1).
    destruct (Hbc d1 Hb) as (d2 & s2 & Hc & E2).
    exists d2, (s1 ++ s2). split; [exact Hc |].
    now rewrite E2, E1, app_assoc.
  - intros c db _ d ->.
    destruct c as [p i n | q | eid n | p i n t | ds t | eid st en]; simpl;
      try (exists d, []; now rewrite app_nil_r).
    + eexists. exists []. split; [reflexivity |]. simpl.
      now rewrite app_nil_r.
    + destruct (remove_employee eid n (Some d)) as [[r db1] | |] eqn:H; simpl;
        try (exists d, []; now rewrite app_nil_r).
      destruct (remove_employee_inv eid n _ db1 r H)
        as (d0 & oid' & l1 & x & l2 & Hd & _ & _ & _ & _ & _ & ->).
      injection Hd as <-.
      eexists. exists []. split; [reflexivity |]. simpl.
      now rewrite app_nil_r.
    + destruct (mark_attendance cfg p i n t (Some d)) as [[out db1] | |] eqn:H;
        simpl; try (exists d, []; now rewrite app_nil_r).
      destruct (mark_attendance_ok _ _ _ _ _ _ _ _ H) as (d0 & Hd & _ & ->).
      injection Hd as <-.
      eexists. eexists. split; reflexivity.
Qed.

Lemma same_employee_refl (e : Employee) : same_employee e e.
Proof. unfold same_employee. tauto. Qed.

Lemma same_employee_trans (a b c : Employee) :
  same_employee a b -> same_employee b c -> same_employee a c.
Proof.
  unfold same_employee.
  intros (A1 & A2 & A3 & A4 & A5 & A6 & A7) (B1 & B2 & B3 & B4 & B5 & B6 & B7).
  repeat split; try congruence. auto.
Qed.

Lemma Forall2_same_refl (l : list Employee) : Forall2 same_employee l l.
Proof.
  induction l; constructor; [apply same_employee_refl | assumption].
Qed.

Lemma Forall2_same_trans (l1 l2 l3 : list Employee) :
  Forall2 same_employee l1 l2 -> Forall2 same_employee l2 l3 ->
  Forall2 same_employee l1 l3.
Proof.
  intro H. revert l3. induction H as [| a b l1 l2 Hab _ IH]; intros l3 H23.
  - inversion H23. constructor.
  - inversion H23 as [| ? c ? l3' Hbc H23']; subst.
    constructor; [exact (same_employee_trans _ _ _ Hab Hbc) | now apply IH].
Qed.

(** X20: employees are never taken off the store nor brought back: after
    any sequence of requests the employee collection holds the earlier
    documents in their order, each with its identifier, name, address, role,
    phone and creation time unchanged and none turned from inactive to
    active, followed by the employees registered since. *)
Theorem employees_never_lost (cfg : Config F) (db db' : option (Database F)) :
  later cfg db db' ->
  forall d, db = Some d ->
  exists d' kept since,
    db' = Some d' /\ employee d' = kept ++ since /\
    Forall2 same_employee (employee d) kept.
Proof.
  intro L.
  apply (later_preorder cfg
           (fun a b => forall d, a = Some d ->
              exists d' kept since,
                b = Some d' /\ employee d' = kept ++ since /\
                Forall2 same_employee (employee d) kept));
    try exact L; clear.
  - intros db d ->. exists d, (employee d), [].
    split; [reflexivity |]. split; [now rewrite app_nil_r |].
    apply Forall2_same_refl.
  - intros a b c Hab Hbc d Ha.
    destruct (Hab d Ha) as (d1 & k1 & s1 & Hb & E1 & F1).
    destruct (Hbc d1 Hb) as (d2 & k2 & s2 & Hc & E2 & F2).
    rewrite E1 in F2.
    apply Forall2_app_inv_l in F2.
    destruct F2 as (k2a & k2b & Fa & Fb & ->).
    exists d2, k2a, (k2b ++ s2).
    split; [exact Hc |]. split; [now rewrite E2, app_assoc |].
    exact (Forall2_same_trans _ _ _ F1 Fa).
  - intros c db _ d ->.
    assert (exists d' kept since,
              Some d = Some d' /\ employee d' = kept ++ since /\
              Forall2 same_employee (employee d) kept) as Same.
    { exists d, (employee d), []. split; [reflexivity |].
      split; [now rewrite app_nil_r | apply Forall2_same_refl]. }
    destruct c as [p i n | q | eid n | p i n t | ds t | eid st en]; simpl;
      try exact Same.
    + eexists. exists (employee d). eexists.
      split; [reflexivity |]. split; [reflexivity |].
      apply Forall2_same_refl.
    + destruct (remove_employee eid n (Some d)) as [[r db1] | |] eqn:H; simpl;
        try exact Same.
      destruct (remove_employee_inv eid n _ db1 r H)
        as (d0 & oid' & l1 & x & l2 & Hd & _ & Hcoll & _ & _ & _ & ->).
      injection Hd as <-.
      eexists. exists (l1 ++ deactivate n x :: l2), [].
      split; [reflexivity |]. split; [simpl; now rewrite app_nil_r |].
      rewrite Hcoll. apply Forall2_app; [apply Forall2_same_refl |].
      constructor; [| apply Forall2_same_refl].
      unfold same_employee, deactivate. simpl.
      repeat split; try reflexivity. discriminate.
    + destruct (mark_attendance cfg p i n t (Some d)) as [[out db1] | |] eqn:H;
        simpl; try exact Same.
      destruct (mark_attendance_ok _ _ _ _ _ _ _ _ H) as (d0 & Hd & _ & ->).
      injection Hd as <-.
      eexists. exists (employee d), [].
      split; [reflexivity |]. split; [simpl; now rewrite app_nil_r |].
      apply Forall2_same_refl.
Qed.

(** ** Distance of a position to itself *)

(** X16: for finite coordinates, the distance from a position to itself is
    exactly [0.0]: both differences are [+0.0], the term under the square
    roots is [+0.0], and no square root leaves its domain. *)
Theorem haversine_m_self (finite : F -> Prop)
    {FZ : PyFloatZeroLaws F finite} (lat lon : F) :
  finite lat -> finite lon ->
  haversine_m lat lon lat lon = of_int 0.
Proof.
  intros Hlat Hlon. unfold haversine_m.
  rewrite (fsub_self lat Hlat), (fsub_self lon Hlon).
  rewrite radians_0, fdiv_0_2, fsin_0, fpow_0_2.
  rewrite (fcos_sq_0 lat Hlat), fadd_0_0.
  rewrite fsqrt_0, fsub_1_0, fsqrt_1, fatan2_0_1, fmul_2_0.
  apply fmul_R_0.
Qed.

(** ** Connectivity probe *)

Lemma length_append (a b : string) :
  String.length (a ++ b)%string = (String.length a + String.length b)%nat.
Proof. induction a as [| c a IH]; simpl; [reflexivity | now rewrite IH]. Qed.

Lemma take_chars_length (n : nat) (s : string) :
  String.length (take_chars n s) = Nat.min n (String.length s).
Proof.
  revert s. induction n as [| n IH]; intros [| c s]; simpl; try reflexivity.
  now rewrite IH.
Qed.

Lemma take_chars_prefix (n : nat) (s : string) :
  starts_with (take_chars n s) s = true.
Proof.
  revert s. induction n as [| n IH]; intros [| c s]; simpl; try reflexivity.
  now rewrite Ascii.eqb_refl, IH.
Qed.

Lemma take_chars_all (n : nat) (s : string) :
  (String.length s <= n)%nat -> take_chars n s = s.
Proof.
  revert s. induction n as [| n IH]; intros [| c s]; simpl; intro H;
    try reflexivity; try lia.
  rewrite IH; [reflexivity | lia].
Qed.

(** X13: the connectivity probe always reports the backend as running and
    lists collections only when it reports "connected"; when listing the
    collections raises with an ASCII text, it reports "error: " followed by
    the first 80 characters of that text (the whole text when it is that
    short) and no collection, so that its status has at most 87
    characters. *)
Theorem test_database_report (db : option (Database F))
    (names : list string + string) :
  backend (test_database db names) = "running" /\
  (collections (test_database db names) <> [] ->
   database (test_database db names) = "connected") /\
  (forall e : string,
     db <> None -> names = inr e -> is_ascii_text e = true ->
     database (test_database db names) =
       ("error: " ++ take_chars 80 e)%string /\
     collections (test_database db names) = [] /\
     starts_with (take_chars 80 e) e = true /\
     String.length (take_chars 80 e) = Nat.min 80 (String.length e) /\
     ((String.length e <= 80)%nat -> take_chars 80 e = e) /\
     (String.length (database (test_database db names)) <= 87)%nat).
Proof.
  split; [| split].
  - destruct db; [destruct names |]; reflexivity.
  - destruct db; [destruct names |]; simpl; intro H;
      try reflexivity; now destruct H.
  - intros e Hdb -> _. destruct db as [d |]; [| now destruct Hdb].
    split; [reflexivity |]. split; [reflexivity |].
    split; [apply take_chars_prefix |].
    split; [apply take_chars_length |].
    split; [apply take_chars_all |].
    unfold test_database, database.
    rewrite length_append, take_chars_length.
    change (String.length "error: ") with 7%nat. lia.
Qed.

End MoreFacts.

(** * The models satisfy the laws *)

Lemma R_float_laws : PyFloatLaws R (FO := RealModel.R_float).
Proof.
  constructor; simpl.
  - intros a b. right. ring.
  - intro x. ring.
  - intros x y. unfold Rdiv. ring.
  - exact sin_neg.
  - intro x. simpl. ring.
  - exact Rmult_comm.
  - intros x y. unfold RealModel.Reqb, RealModel.Rleb.
    destruct (Req_dec_T x y) as [-> | _]; [| discriminate].
    intros _. destruct (Rle_dec y y) as [_ | N]; [reflexivity |].
    exfalso. apply N. apply Rle_refl.
Qed.

Lemma R_float_zero_laws :
  PyFloatZeroLaws R (FO := RealModel.R_float) (fun _ => True).
Proof.
  constructor; simpl; intros; try ring.
  - unfold Rdiv. ring.
  - exact sin_0.
  - exact sqrt_0.
  - exact sqrt_1.
  - unfold RealModel.Ratan2.
    destruct (Rlt_dec 0 1) as [_ | N]; [| exfalso; apply N; exact Rlt_0_1].
    replace (0 / 1)%R with 0%R by (unfold Rdiv; ring). exact atan_0.
Qed.





(** * The theorems at work on the example office *)

Section Witnesses.

Import Examples.

#[local] Existing Instance RealModel.R_float.
#[local] Existing Instance Fragment.engine.

Lemma haversine_m_symmetric_witness :
  haversine_m (IZR 12) (IZR 77) (IZR 13) (IZR 78) =
  haversine_m (IZR 13) (IZR 78) (IZR 12) (IZR 77).
Proof.
  exact (haversine_m_symmetric (FL := R_float_laws)
           (IZR 12) (IZR 77) (IZR 13) (IZR 78)).
Defined.

Lemma Reqb_refl (x : R) : RealModel.Reqb x x = true.
Proof.
  unfold RealModel.Reqb. destruct (Req_dec_T x x) as [_ | N];
    [reflexivity | now destruct N].
Qed.

Lemma classify_present_iff_witness :
  classify (IZR 200) (IZR 200) = "present".
Proof.
  apply (classify_present_iff (FL := R_float_laws) (IZR 200) (IZR 200)).
  apply Reqb_refl.
Defined.

Lemma office_enabled :
  ~ (feq (OFFICE_LAT office) (of_int 0) = true /\
     feq (OFFICE_LNG office) (of_int 0) = true).
Proof.
  intros [E _]. simpl in E. unfold RealModel.Reqb in E.
  destruct (Req_dec_T 12 0) as [C | _]; [lra | discriminate E].
Qed.

Lemma mark_at_position :
  mark_attendance office (at_position id_bob 13 78) oid_fourth 320
                  "2024-01-17" db_removed =
  Ok ({| ao_id := str oid_fourth; ao_employee_id := id_bob;
         ao_date := "2024-01-17";
         ao_status :=
           classify (haversine_m (IZR 12) (IZR 77) (IZR 13) (IZR 78))
                    (IZR 200);
         ao_lat := Some (IZR 13); ao_lng := Some (IZR 78);
         ao_distance_m :=
           Some (haversine_m (IZR 12) (IZR 77) (IZR 13) (IZR 78)) |},
      Some
        {| employee := employee d_removed;
           attendance := attendance d_removed ++
             [ {| a__id := oid_fourth; a_employee_id := id_bob;
                  a_status :=
                    classify (haversine_m (IZR 12) (IZR 77) (IZR 13) (IZR 78))
                             (IZR 200);
                  a_date := "2024-01-17";
                  a_lat := Some (IZR 13); a_lng := Some (IZR 78);
                  a_distance_m :=
                    Some (haversine_m (IZR 12) (IZR 77) (IZR 13) (IZR 78));
                  a_created_at := 320 |} ] |}).
Proof.
  unfold mark_attendance.
  change (_collection employee db_removed) with (Ok (employee d_removed)).
  cbn [bind].
  change (ObjectId_of_str (employee_id (at_position id_bob 13 78)))
    with (Some oid_bob).
  cbn [bind].
  change (find_one (fun e => by_id oid_bob e && e_is_active e)
                   (employee d_removed))
    with (Some (nth 1 (employee d_removed)
                      {| e__id := oid_bob; e_name := ""; e_email := "";
                         e_role := None; e_phone := None;
                         e_is_active := true; e_created_at := 0;
                         e_updated_at := None |})).
  cbn [lat lng at_position employee_id].
  rewrite (evaluate_enabled office (IZR 13) (IZR 78) office_enabled).
  reflexivity.
Qed.

Lemma mark_attendance_geofence_witness :
  (exists out db',
     mark_attendance office (no_position id_bob) oid_fourth 320 "2024-01-17"
                     db_removed = Ok (out, db') /\
     ao_status out = "absent" /\ ao_distance_m out = None) /\
  (exists out db',
     mark_attendance office (at_position id_bob 13 78) oid_fourth 320
                     "2024-01-17" db_removed = Ok (out, db') /\
     ao_distance_m out =
       Some (haversine_m (IZR 12) (IZR 77) (IZR 13) (IZR 78)) /\
     (ao_status out = "present" <->
      fle (haversine_m (IZR 12) (IZR 77) (IZR 13) (IZR 78)) (IZR 200) = true)).
Proof.
  split.
  - eexists. eexists. split; [reflexivity |].
    apply (mark_attendance_geofence office (no_position id_bob) oid_fourth 320
             "2024-01-17" db_removed _ _ eq_refl).
    left. reflexivity.
  - eexists. eexists. split; [exact mark_at_position |].
    destruct (mark_attendance_geofence office (at_position id_bob 13 78)
                oid_fourth 320 "2024-01-17" db_removed _ _ mark_at_position)
      as [_ [H _]].
    destruct (H (IZR 13) (IZR 78) eq_refl eq_refl office_enabled)
      as [Hd [Hs _]].
    split; [exact Hd | exact Hs].
Defined.

Lemma mark_attendance_errors_witness :
  mark_attendance office (no_position "ada") oid_fourth 320 "2024-01-17"
                  db_removed = HTTPException 400 "Invalid employee id" /\
  mark_attendance office (no_position id_nobody) oid_fourth 320 "2024-01-17"
                  db_removed =
    HTTPException 404 "Employee not found or inactive" /\
  mark_attendance office (no_position id_ada) oid_fourth 320 "2024-01-17"
                  db_removed =
    HTTPException 404 "Employee not found or inactive" /\
  mark_attendance office (no_position "0123456789abcdef012345  ") oid_fourth
                  320 "2024-01-17" db_removed =
    HTTPException 404 "Employee not found or inactive" /\
  mark_attendance office (no_position "ada") oid_fourth 320 "2024-01-17" None =
    HTTPException 500 "Database not configured".
Proof.
  assert (forall oid : ObjectId,
            oid <> oid_bob ->
            forall e : Employee,
              In e (employee d_removed) -> e__id e = oid ->
              e_is_active e = false) as Gone.
  { intros oid N e [<- | [<- | []]]; simpl; intro E;
      [reflexivity | now destruct N]. }
  split; [| split; [| split; [| split]]].
  - apply (proj2 (mark_attendance_errors office (no_position "ada") oid_fourth
                    320 "2024-01-17" db_removed) d_removed eq_refl).
    reflexivity.
  - apply (proj2 (proj2 (mark_attendance_errors office (no_position id_nobody)
                           oid_fourth 320 "2024-01-17" db_removed)
                        d_removed eq_refl)
                 (Oid id_nobody) eq_refl).
    apply Gone. discriminate.
  - apply (proj2 (proj2 (mark_attendance_errors office (no_position id_ada)
                           oid_fourth 320 "2024-01-17" db_removed)
                        d_removed eq_refl)
                 oid_ada eq_refl).
    apply Gone. discriminate.
  - apply (proj2 (proj2 (mark_attendance_errors office
                           (no_position "0123456789abcdef012345  ")
                           oid_fourth 320 "2024-01-17" db_removed)
                        d_removed eq_refl)
                 (Oid "0123456789abcdef012345") eq_refl).
    apply Gone. discriminate.
  - apply (proj1 (mark_attendance_errors office (no_position "ada") oid_fourth
                    320 "2024-01-17" None)).
    reflexivity.
Defined.

(** C3, as stated, fails: with no database configured, a request with a
    malformed identifier is answered 500, not 400, and one with a well-formed
    identifier of nobody 500, not 404. *)
Lemma mark_attendance_no_database :
  ObjectId_of_str "ada" = None /\
  mark_attendance office (no_position "ada") oid_fourth 320 "2024-01-17" None =
    HTTPException 500 "Database not configured" /\
  ObjectId_of_str id_nobody = Some (Oid id_nobody) /\
  mark_attendance office (no_position id_nobody) oid_fourth 320 "2024-01-17"
                  None =
    HTTPException 500 "Database not configured".
Proof. repeat split. Qed.

Lemma later_example : later office db_removed db_later.
Proof.
  apply later_step with (c := CreateEmployee carol oid_carol 310).
  { simpl. intros [E | [E | []]]; discriminate E. }
  apply later_step
    with (c := MarkAttendance (no_position id_bob) oid_fourth 320 "2024-01-17").
  { simpl. intros [E | [E | [E | []]]]; discriminate E. }
  apply later_step with (c := ListEmployees None); [exact I |].
  apply later_step with (c := RemoveEmployee id_ada 330); [exact I |].
  apply later_refl.
Qed.

Lemma unique_ids_marked : unique_ids db_marked.
Proof.
  unfold unique_ids. simpl.
  constructor; [intros [E | []]; discriminate E |].
  constructor; [intros [] | constructor].
Qed.

Lemma soft_delete_excludes_witness :
  (forall (q : option string) (res : list EmployeeOut),
     list_employees q db_later = Ok res -> ~ In id_ada (map eo_id res)) /\
  mark_attendance office (at_position id_ada 12 77) oid_third 340 "2024-01-18"
                  db_later =
    HTTPException 404 "Employee not found or inactive".
Proof.
  destruct (soft_delete_excludes office id_ada 300 db_marked db_removed
              db_later "ok" oid_ada unique_ids_marked eq_refl eq_refl
              later_example) as [Hlist Hmark].
  split.
  - exact Hlist.
  - exact (Hmark (at_position id_ada 12 77) oid_third 340%Z "2024-01-18"
                  eq_refl).
Defined.

(** C5, as stated, fails: Ada has been removed and is gone from the listing,
    yet the roster of a day on which she marked attendance still shows her
    name. *)
Lemma daily_roster_names_soft_deleted :
  remove_employee id_ada 300 db_marked = Ok ("ok", db_removed) /\
  list_employees None db_removed =
    Ok [ {| eo_id := id_bob; eo_name := "Bob"; eo_email := "bob@example.com";
            eo_role := Some "clerk"; eo_phone := None;
            eo_is_active := true |} ] /\
  attendance_daily (Some "2024-01-15") "2024-02-01" db_removed =
    Ok {| d_date := "2024-01-15";
          d_records :=
            [ {| dr_id := "aaaaaaaaaaaaaaaaaaaaaaa2";
                 dr_employee_id := id_ada;
                 dr_employee_name := Some "Ada";
                 dr_status := "absent";
                 dr_date := "2024-01-15";
                 dr_distance_m := None |} ] |}.
Proof. split; [| split]; reflexivity. Qed.

Lemma well_formed_references :
  forall a : Attendance R,
    In a (attendance d_removed) -> truthy (a_employee_id a) = true ->
    ObjectId_of_str (a_employee_id a) <> None.
Proof.
  intros a [<- | [<- | [<- | []]]] _; discriminate.
Qed.

Lemma attendance_daily_names_witness :
  exists resp : DailyOut R,
    attendance_daily (Some "2024-01-15") "2024-02-01" (Some d_removed) =
      Ok resp /\
    Forall2
      (fun a r =>
         dr_id r = str (a__id a) /\
         dr_employee_id r = a_employee_id a /\
         dr_employee_name r =
           option_map e_name
             (point_lookup (employee d_removed) (a_employee_id a)))
      (filter (fun a => String.eqb (a_date a) (d_date resp))
              (attendance d_removed))
      (d_records resp).
Proof.
  destruct (proj2 (attendance_daily_names (Some "2024-01-15") "2024-02-01"
                     d_removed) well_formed_references) as [resp E].
  exists resp. split; [exact E |].
  exact (proj1 (proj1 (attendance_daily_names (Some "2024-01-15")
                         "2024-02-01" d_removed) resp E)).
Defined.




Lemma week_statuses :
  forall a : Attendance R,
    In a (filter (summary_filter id_bob None None) (attendance db_week)) ->
    a_status a = "present" \/ a_status a = "absent".
Proof.
  intros a [<- | [<- | [<- | [<- | []]]]]; simpl; auto.
Qed.

Lemma attendance_summary_series_witness :
  exists resp : SummaryOut,
    attendance_summary id_bob None None (Some db_week) = Ok resp /\
    StronglySorted (fun a b => String.ltb a b = true)
                   (map s_date (so_series resp)) /\
    so_present resp = list_sum (map s_present (so_series resp)) /\
    so_absent resp = list_sum (map s_absent (so_series resp)).
Proof.
  destruct (proj2 (attendance_summary_series id_bob None None db_week)
                  week_statuses) as [resp E].
  exists resp. split; [exact E |].
  destruct (proj1 (attendance_summary_series id_bob None None db_week) resp E)
    as (S & _ & _ & P & A).
  split; [exact S | split; [exact P | exact A]].
Defined.

Lemma remove_employee_inactive_ok_witness :
  exists d' : Database R,
    remove_employee id_ada 330 (Some d_removed) = Ok ("ok", Some d') /\
    attendance d' = attendance d_removed /\
    (unique_ids (Some d_removed) ->
     map employee_out (employee d') = map employee_out (employee d_removed)).
Proof.
  apply (remove_employee_inactive_ok id_ada 330 d_removed oid_ada
           (nth 0 (employee d_removed)
                {| e__id := oid_ada; e_name := ""; e_email := "";
                   e_role := None; e_phone := None; e_is_active := false;
                   e_created_at := 0; e_updated_at := None |})).
  - reflexivity.
  - left. reflexivity.
  - reflexivity.
  - reflexivity.
Defined.

Lemma week_statuses_of_bob :
  forall a : Attendance R,
    In a (filter (fun a => String.eqb (a_employee_id a) id_bob)
                 (attendance db_week)) ->
    a_status a = "present" \/ a_status a = "absent".
Proof.
  intros a [<- | [<- | [<- | [<- | []]]]]; simpl; auto.
Qed.

Lemma attendance_summary_range_witness :
  attendance_summary id_bob (Some "2024-01-16") None (Some db_week) =
    attendance_summary id_bob None None (Some db_week) /\
  attendance_summary id_bob (Some "") (Some "2024-01-16") (Some db_week) =
    attendance_summary id_bob None None (Some db_week) /\
  (exists resp : SummaryOut,
     attendance_summary id_bob (Some "2024-01-16") None (Some db_week) =
       Ok resp /\
     so_present resp =
       count_status "present"
         (filter (fun a => String.eqb (a_employee_id a) id_bob)
                 (attendance db_week))) /\
  (forall a : Attendance R,
     summary_filter id_bob (Some "2024-01-16") (Some "2024-01-31") a =
     String.eqb (a_employee_id a) id_bob &&
     (String.leb "2024-01-16" (a_date a) && String.leb (a_date a) "2024-01-31")).
Proof.
  split; [| split; [| split]].
  - apply (proj1 (attendance_summary_range id_bob (Some "2024-01-16") None
                    (Some db_week))).
    right. reflexivity.
  - apply (proj1 (attendance_summary_range id_bob (Some "")
                    (Some "2024-01-16") (Some db_week))).
    left. reflexivity.
  - destruct (proj1 (attendance_summary_range id_bob (Some "2024-01-16") None
                       (Some db_week)) (or_intror eq_refl))
      as (_ & _ & Hsum).
    destruct (Hsum db_week eq_refl) as [Hans Htot].
    destruct (Htot week_statuses_of_bob) as [resp E].
    exists resp. split; [exact E |].
    exact (proj1 (Hans resp E)).
  - exact (proj1 (proj2 (attendance_summary_range id_bob (Some "2024-01-16")
                    (Some "2024-01-31") (Some db_week))
                 "2024-01-16" "2024-01-31" eq_refl eq_refl eq_refl eq_refl)).
Defined.

End Witnesses.

(** * The further properties at work *)

Section MoreWitnesses.

Import Examples.

#[local] Existing Instance RealModel.R_float.
#[local] Existing Instance Fragment.engine.

Lemma unique_ids_removed : unique_ids (Some d_removed).
Proof.
  unfold unique_ids. simpl.
  constructor; [intros [E | []]; discriminate E |].
  constructor; [intros [] | constructor].
Qed.

Lemma remove_employee_outcome_witness :
  remove_employee "ada" 500 (Some d_removed) =
    HTTPException 400 "Invalid employee id" /\
  remove_employee id_nobody 500 (Some d_removed) =
    HTTPException 404 "Employee not found" /\
  remove_employee "0123456789abcdef012345  " 500 (Some d_removed) =
    HTTPException 404 "Employee not found" /\
  exists db', remove_employee id_ada 500 (Some d_removed) = Ok ("ok", db').
Proof.
  split; [| split; [| split]].
  - apply (proj1 (remove_employee_outcome "ada" 500 d_removed)).
    reflexivity.
  - apply (proj1 (proj2 (remove_employee_outcome id_nobody 500 d_removed))).
    exists (Oid id_nobody). split; [reflexivity |].
    intros e [<- | [<- | []]]; discriminate.
  - apply (proj1 (proj2 (remove_employee_outcome "0123456789abcdef012345  "
                           500 d_removed))).
    exists (Oid "0123456789abcdef012345"). split; [reflexivity |].
    intros e [<- | [<- | []]]; discriminate.
  - apply (proj2 (proj2 (remove_employee_outcome id_ada 500 d_removed))).
    exists oid_ada, (nth 0 (employee d_removed)
                         {| e__id := oid_ada; e_name := ""; e_email := "";
                            e_role := None; e_phone := None;
                            e_is_active := false; e_created_at := 0;
                            e_updated_at := None |}).
    split; [reflexivity |]. split; [left; reflexivity | reflexivity].
Defined.

Lemma remove_employee_listing_witness :
  exists db',
    remove_employee id_bob 500 (Some d_removed) = Ok ("ok", db') /\
    forall q : option string,
      list_employees q db' =
      match list_employees q (Some d_removed) with
      | Ok res =>
          Ok (filter (fun o => negb (String.eqb (eo_id o) (str oid_bob))) res)
      | HTTPException c m => HTTPException c m
      | Uncaught e => Uncaught e
      end.
Proof.
  eexists. split; [reflexivity |].
  exact (proj2 (remove_employee_listing id_bob 500 d_removed _ oid_bob
                  unique_ids_removed eq_refl eq_refl)).
Defined.

Lemma create_employee_visible_witness :
  exists d' : Database R,
    create_employee carol oid_carol 310 (Some d_removed) =
      Ok ({| eo_id := str oid_carol; eo_name := "Carol";
             eo_email := "carol@example.com"; eo_role := None;
             eo_phone := Some "555-0100"; eo_is_active := true |}, Some d') /\
    exists o db'',
      mark_attendance office (no_position (str oid_carol)) oid_fourth 320
                      "2024-01-17" (Some d') = Ok (o, db'') /\
      ao_employee_id o = str oid_carol /\ ao_status o = "absent".
Proof.
  destruct (create_employee_visible carol oid_carol 310 d_removed)
    as (d' & Hc & _ & _ & _ & Hm).
  exists d'. split; [exact Hc |].
  exact (Hm eq_refl office (no_position (str oid_carol)) oid_fourth 320%Z
            "2024-01-17" eq_refl (or_introl eq_refl)).
Defined.

Lemma mark_attendance_roster_witness :
  exists out db' resp,
    mark_attendance office (no_position id_bob) oid_fourth 320 "2024-01-15"
                    (Some d_removed) = Ok (out, db') /\
    attendance_daily (Some "2024-01-15") "2024-02-01" (Some d_removed) =
      Ok resp /\
    exists e : Employee,
      point_lookup (employee d_removed) id_bob = Some e /\
      attendance_daily (Some "2024-01-15") "2024-02-01" db' =
        Ok {| d_date := d_date resp;
              d_records :=
                d_records resp ++
                if String.eqb "2024-01-15" (d_date resp)
                then [ {| dr_id := ao_id out; dr_employee_id := id_bob;
                          dr_employee_name := Some (e_name e);
                          dr_status := ao_status out;
                          dr_date := "2024-01-15";
                          dr_distance_m := ao_distance_m out |} ]
                else [] |}.
Proof.
  eexists. eexists. eexists.
  split; [reflexivity |]. split; [reflexivity |].
  exact (mark_attendance_roster office (no_position id_bob) oid_fourth 320
           "2024-01-15" d_removed _ _ (Some "2024-01-15") "2024-02-01" _
           eq_refl eq_refl).
Defined.

Lemma mark_attendance_summary_witness :
  exists out db' resp,
    mark_attendance office (no_position id_ada) oid_fourth 320 "2024-01-17"
                    db_registered = Ok (out, db') /\
    attendance_summary id_ada None None db_registered = Ok resp /\
    attendance_summary id_bob None None db' =
      attendance_summary id_bob None None db_registered /\
    exists resp' : SummaryOut,
      attendance_summary id_ada None None db' = Ok resp' /\
      (so_present resp' + so_absent resp' =
       so_present resp + so_absent resp + 1)%nat.
Proof.
  eexists. eexists. eexists.
  split; [reflexivity |]. split; [reflexivity |].
  destruct (mark_attendance_summary office (no_position id_ada) oid_fourth 320
              "2024-01-17" d_registered _ _ eq_refl) as [Hother Hown].
  split.
  - apply Hother. discriminate.
  - destruct (Hown _ eq_refl) as (resp' & E & _ & _ & Hsum).
    exists resp'. split; [exact E | exact Hsum].
Defined.

Lemma attendance_daily_empty_witness :
  attendance_daily (Some "2024-03-01") "2024-02-01" (Some d_broken) =
    Ok {| d_date := "2024-03-01"; d_records := [] |}.
Proof.
  apply (proj2 (proj2 (attendance_daily_empty "2024-02-01" (Some d_broken)))
               "2024-03-01" d_broken eq_refl eq_refl).
  intros a [<- | [<- | [<- | [<- | []]]]]; discriminate.
Defined.

Lemma attendance_daily_malformed_witness :
  attendance_daily (Some "2024-01-15") "2024-02-01" (Some d_broken) =
    Uncaught "InvalidId".
Proof.
  apply (attendance_daily_malformed "2024-01-15" "2024-02-01" d_broken
           (nth 3 (attendance d_broken)
                {| a__id := oid_first; a_employee_id := ""; a_status := "";
                   a_date := ""; a_lat := None; a_lng := None;
                   a_distance_m := None; a_created_at := 0 |})).
  - reflexivity.
  - right. right. right. left. reflexivity.
  - reflexivity.
  - reflexivity.
  - reflexivity.
Defined.

Lemma attendance_summary_nothing_witness :
  attendance_summary "nobody" None None (Some db_week) =
    Ok {| so_present := 0; so_absent := 0; so_series := [] |} /\
  attendance_summary id_bob (Some "2024-01-31") (Some "2024-01-01")
                     (Some db_week) =
    Ok {| so_present := 0; so_absent := 0; so_series := [] |}.
Proof.
  split.
  - apply (proj1 (attendance_summary_nothing "nobody" None None db_week)).
    intros a [<- | [<- | [<- | [<- | []]]]]; discriminate.
  - exact (proj2 (attendance_summary_nothing id_bob (Some "2024-01-31")
                    (Some "2024-01-01") db_week)
                 "2024-01-31" "2024-01-01" eq_refl eq_refl eq_refl eq_refl
                 eq_refl).
Defined.

Ltac serve rq :=
  apply later_step with (c := rq);
  [ simpl; try exact I; intuition discriminate | ].

Lemma reachable_later : reachable office db_later.
Proof.
  unfold reachable.
  serve (CreateEmployee (F := R) ada oid_ada 100).
  serve (CreateEmployee (F := R) bob oid_bob 110).
  serve (MarkAttendance (no_position id_ada) oid_first 200 "2024-01-16").
  serve (MarkAttendance (no_position id_ada) oid_second 210 "2024-01-15").
  serve (MarkAttendance (no_position id_ada) oid_third 220 "2024-01-16").
  serve (RemoveEmployee (F := R) id_ada 300).
  serve (CreateEmployee (F := R) carol oid_carol 310).
  serve (MarkAttendance (no_position id_bob) oid_fourth 320 "2024-01-17").
  serve (ListEmployees (F := R) None).
  serve (RemoveEmployee (F := R) id_ada 330).
  apply later_refl.
Qed.

Lemma reachable_consistent_witness : consistent db_later.
Proof. exact (reachable_consistent office db_later reachable_later). Defined.

Lemma reachable_roster_witness :
  exists resp : DailyOut R,
    attendance_daily (Some "2024-01-16") "2024-02-01" db_later = Ok resp /\
    forall r, In r (d_records resp) -> dr_employee_name r <> None.
Proof.
  exact (reachable_roster office db_later (Some "2024-01-16") "2024-02-01"
           reachable_later).
Defined.

Lemma reachable_summary_witness :
  exists resp : SummaryOut,
    attendance_summary id_ada (Some "2024-01-16") (Some "2024-01-31") db_later =
      Ok resp.
Proof.
  exact (reachable_summary office db_later id_ada (Some "2024-01-16")
           (Some "2024-01-31") reachable_later).
Defined.

Lemma test_database_report_witness :
  database (test_database (Some d_removed) (inr "connection refused")) =
    "error: connection refused" /\
  collections (test_database (Some d_removed) (inr "connection refused")) = [].
Proof.
  destruct (proj2 (proj2
              (test_database_report (Some d_removed)
                 (inr "connection refused")))
              "connection refused") as (Hd & Hc & _).
  - discriminate.
  - reflexivity.
  - reflexivity.
  - split; [exact Hd | exact Hc].
Defined.

Lemma attendance_summary_counts_all_witness :
  exists resp : SummaryOut,
    attendance_summary id_bob (Some "2024-01-16") (Some "2024-01-31")
                       (Some db_week) = Ok resp /\
    (so_present resp + so_absent resp =
     List.length (filter (summary_filter id_bob (Some "2024-01-16")
                                         (Some "2024-01-31"))
                         (attendance db_week)))%nat.
Proof.
  eexists. split; [reflexivity |].
  exact (attendance_summary_counts_all id_bob (Some "2024-01-16")
           (Some "2024-01-31") db_week _ eq_refl).
Defined.

Lemma list_employees_narrows_witness :
  exists (m : string -> bool) (everybody : list EmployeeOut),
    regex_i "b.b" = Some m /\
    list_employees None (Some d_registered) = Ok everybody /\
    list_employees (Some "b.b") (Some d_registered) =
      Ok (filter (fun o => m (eo_name o) || m (eo_email o)) everybody).
Proof.
  pose (m := Fragment.search
               [Fragment.Chr "b"%char; Fragment.AnyChar;
                Fragment.Chr "b"%char]).
  exists m.
  destruct (list_employees_narrows (RX := Fragment.engine) "b.b" m
              d_registered eq_refl eq_refl)
    as (everybody & Hall & Hq).
  exists everybody. split; [reflexivity |]. split; [exact Hall | exact Hq].
Defined.

Lemma attendance_append_only_witness :
  exists d' since,
    db_later = Some d' /\ attendance d' = attendance d_removed ++ since.
Proof.
  exact (attendance_append_only office db_removed db_later later_example
           d_removed eq_refl).
Defined.

Lemma employees_never_lost_witness :
  exists d' kept since,
    db_later = Some d' /\ employee d' = kept ++ since /\
    Forall2 same_employee (employee d_removed) kept.
Proof.
  exact (employees_never_lost office db_removed db_later later_example
           d_removed eq_refl).
Defined.

Lemma haversine_m_self_witness :
  haversine_m (IZR 12) (IZR 77) (IZR 12) (IZR 77) = IZR 0.
Proof.
  exact (haversine_m_self (fun _ => True) (FZ := R_float_zero_laws)
           (IZR 12) (IZR 77) I I).
Defined.

End MoreWitnesses.
